(** * Equinox: [filter_shard_map] and [BatchNorm]

    A shallow embedding of [equinox/_shard_map.py] and of
    [equinox/nn/_batch_norm.py], and the properties of the two that the
    design document states.

    Python exceptions are values of an error monad.  The distributed-map
    primitive [jax.shard_map] is not run: a call of the wrapper either ends
    by itself or reaches the primitive with a request that records every
    argument of that call, and a continuation for what the primitive
    returns.  The numeric library (jax, jax.numpy, jax.lax) is an interface
    the batch-norm layer is generic in. *)

From Stdlib Require Import ZArith QArith String List.
From stdpp Require Import base option list gmap strings.

Set Default Proof Using "Type".
Set Warnings "-register-all".
Local Open Scope string_scope.

(** ** Exceptions *)

Record exn := Exn { exn_class : string; exn_msg : string }.

Inductive result (A : Type) : Type :=
| Ok (a : A)
| Raise (e : exn).
Arguments Ok {A} a.
Arguments Raise {A} e.

#[export] Instance result_ret : MRet result := fun A a => Ok a.
#[export] Instance result_bind : MBind result := fun A B k m =>
  match m with
  | Ok a => k a
  | Raise e => Raise e
  end.
#[export] Instance result_fmap : FMap result := fun A B g m =>
  match m with
  | Ok a => Ok (g a)
  | Raise e => Raise e
  end.

Definition is_ok {A} (r : result A) : bool :=
  match r with Ok _ => true | Raise _ => false end.

(** ** The filtering shard-map wrapper *)

Module ShardMap.

(** A jax array: its shape and its entries. *)
Record Array := mkArray { shape : list nat; entries : list Q }.

(** A leaf of a tree that is not an array: a string, a Python int or bool, a
    [jax.sharding.PartitionSpec] (one entry per array axis, [None] or a mesh
    axis name), or any other object, known by its identity. *)
Inductive PyObj :=
| OStr (s : string)
| OInt (z : Z)
| OBool (b : bool)
| OSpec (axes : list (option string))
| ORef (id : positive).

#[export] Instance PyObj_eq_dec : EqDecision PyObj.
Proof. solve_decision. Defined.

(** The containers of a tree; a module carries its class name and its static
    fields in the tree structure. *)
Inductive NodeKind :=
| KTuple
| KList
| KDict (keys : list string)
| KModule (cls : string) (aux : list PyObj).

#[export] Instance NodeKind_eq_dec : EqDecision NodeKind.
Proof. solve_decision. Defined.

Inductive PyTree :=
| Arr (a : Array)
| Obj (o : PyObj)
| PyNone
| Node (k : NodeKind) (cs : list PyTree).

Definition Tuple (cs : list PyTree) : PyTree := Node KTuple cs.

(** [jax.sharding.PartitionSpec()] *)
Definition PartitionSpec0 : PyTree := Obj (OSpec []).

Record Mesh := mkMesh { axes : list (string * nat) }.

(** Modelled from the spec: the Static Wrapper of [equinox/_module.py],
    which is not among the sources: [wrap(value)] holds an arbitrary value
    as one unit, and [.value] unwraps it. *)
Record Static := MkStatic { value : PyTree }.

(** A wrapped callable, applied to the tuple of its positional arguments:
    [fn t] is Python's [fun( *t )]. *)
Definition Callable := PyTree -> result PyTree.

(** [class _ShardMapWrapper(Module)] *)
Record _ShardMapWrapper := {
  _fun : Callable;
  _out_specs : PyTree;
  _in_specs : PyTree;
  _mesh : option Mesh;
  _axis_names : gset string;
  _check_vma : bool
}.

Definition __wrapped__ (self : _ShardMapWrapper) : Callable := _fun self.

(** One call of [jax.shard_map(f, mesh=.., in_specs=.., out_specs=..,
    axis_names=.., check_vma=..)( *operands )]. *)
Record shard_map_call := {
  f : PyTree -> result (PyTree * Static);
  mesh : option Mesh;
  in_specs : PyTree;
  out_specs : PyTree;
  axis_names : gset string;
  check_vma : bool;
  operands : list PyTree
}.

(** What a call of the wrapper does: it ends with a value or an exception
    without reaching the primitive, or it enters the primitive with a
    request and goes on with what the primitive returns or raises. *)
Inductive action :=
| Done (r : result PyTree)
| Dispatch (c : shard_map_call) (k : result (PyTree * Static) -> result PyTree).

(** Running a call against an implementation of the primitive. *)
Definition run (shard_map : shard_map_call -> result (PyTree * Static))
    (a : action) : result PyTree :=
  match a with
  | Done r => r
  | Dispatch c k => k (shard_map c)
  end.

Definition kwargs_error : exn :=
  Exn "RuntimeError"
      "keyword arguments cannot be used with functions wrapped with `filter_shard_map`".

Section Wrapper.
(** The tree collaborators of [equinox/_filters.py]; each may raise. *)
Variable partition : PyTree -> (PyTree -> bool) -> result (PyTree * PyTree).
Variable combine : PyTree -> PyTree -> result PyTree.
Variable is_array : PyTree -> bool.

(** The closure [_fun_wrapper] of [__call__]. *)
Definition _fun_wrapper (self : _ShardMapWrapper) (static_args : PyTree)
    (_dynamic_args : PyTree) : result (PyTree * Static) :=
  _args ← combine _dynamic_args static_args;
  _out ← _fun self _args;
  '(_dynamic_out, _static_out) ← partition _out is_array;
  mret (_dynamic_out, MkStatic _static_out).

(** [_ShardMapWrapper.__call__(self, /, *args, **kwargs)] *)
Definition __call__ (self : _ShardMapWrapper) (args : list PyTree)
    (kwargs : list (string * PyTree)) : action :=
  if negb (length kwargs =? 0)%nat then Done (Raise kwargs_error)
  else
    match partition (Tuple args) is_array with
    | Raise e => Done (Raise e)
    | Ok (dynamic_args, static_args) =>
        Dispatch
          {| f := _fun_wrapper self static_args;
             mesh := _mesh self;
             in_specs := Tuple [_in_specs self];
             out_specs := Tuple [_out_specs self; PartitionSpec0];
             axis_names := _axis_names self;
             check_vma := _check_vma self;
             operands := [dynamic_args] |}
          (fun r =>
             '(dynamic_out, static_out) ← r;
             combine dynamic_out (value static_out))
    end.
End Wrapper.

(** *** The tree collaborators *)

(** Modelled from the spec: [is_array] of [equinox/_filters.py], which is
    not among the sources: the test for a numeric-array leaf. *)
Definition is_array (x : PyTree) : bool :=
  match x with Arr _ => true | _ => false end.

(** Modelled from the spec: [partition] of [equinox/_filters.py], which is
    not among the sources: it splits a nested structure into two parallel
    structures, the first with the leaves that satisfy the predicate, the
    second with the other leaves, the missing leaves replaced by the
    placeholder [None]. *)
Fixpoint partition (pytree : PyTree) (filter_spec : PyTree -> bool)
    {struct pytree} : PyTree * PyTree :=
  match pytree with
  | PyNone => (PyNone, PyNone)
  | Node k cs =>
      let halves := map (fun c => partition c filter_spec) cs in
      (Node k (map fst halves), Node k (map snd halves))
  | leaf => if filter_spec leaf then (leaf, PyNone) else (PyNone, leaf)
  end.

Definition structure_error : exn :=
  Exn "ValueError" "tree structures do not match".

(** Modelled from the spec: [combine] of [equinox/_filters.py], which is not
    among the sources: it merges two trees, a placeholder of the first
    filled from the corresponding position of the second. *)
Fixpoint combine (tree_a tree_b : PyTree) {struct tree_a} : result PyTree :=
  match tree_a with
  | PyNone => Ok tree_b
  | Arr _ | Obj _ => Ok tree_a
  | Node k cs =>
      match tree_b with
      | Node k' cs' =>
          if decide (k = k') then
            Node k <$>
              (fix children (xs ys : list PyTree) : result (list PyTree) :=
                 match xs, ys with
                 | [], [] => Ok []
                 | x :: xs', y :: ys' =>
                     z ← combine x y;
                     zs ← children xs' ys';
                     mret (z :: zs)
                 | _, _ => Raise structure_error
                 end) cs cs'
          else Raise structure_error
      | _ => Raise structure_error
      end
  end.

(** The shape of a tree: every array leaf replaced by one fixed array. *)
Fixpoint tree_shape (t : PyTree) : PyTree :=
  match t with
  | Arr _ => Arr (mkArray [] [])
  | Node k cs => Node k (map tree_shape cs)
  | other => other
  end.

(** The non-array leaves of a tree, left to right. *)
Fixpoint static_leaves (t : PyTree) : list PyObj :=
  match t with
  | Obj o => [o]
  | Node _ cs => flat_map static_leaves cs
  | _ => []
  end.

(** The array leaves of a tree, left to right. *)
Fixpoint array_leaves (t : PyTree) : list Array :=
  match t with
  | Arr a => [a]
  | Node _ cs => flat_map array_leaves cs
  | _ => []
  end.

(** The wrapper with the tree collaborators as modelled. *)
Definition invoke (self : _ShardMapWrapper) (args : list PyTree)
    (kwargs : list (string * PyTree)) : action :=
  __call__ (fun t p => Ok (partition t p)) combine is_array self args kwargs.

(** The primitive modelled as one application of the mapped function to
    its one operand. *)
Definition shard_map_once (c : shard_map_call) : result (PyTree * Static) :=
  match operands c with
  | [x] => f c x
  | _ => Raise (Exn "TypeError" "wrong number of positional arguments")
  end.

(** *** Method binding *)

(** Objects live in a store, so that a bound callable can refer to the very
    wrapper it was made from. *)
Definition loc := positive.

(** Modelled from the spec: [Partial] of [equinox/_module.py], which is not
    among the sources: a callable that holds a function and leading
    positional arguments, and calls the function with these prepended. *)
Inductive object :=
| OWrapper (w : _ShardMapWrapper)
| OPartial (func : loc) (args : list PyTree) (keywords : list (string * PyTree)).

Definition alloc (h : gmap loc object) (o : object) : gmap loc object * loc :=
  let l := fresh (dom h) in (<[l := o]> h, l).

(** [_ShardMapWrapper.__get__(self, instance, owner)]; [self] is the
    reference to the wrapper, and the result is a reference. *)
Definition __get__ (h : gmap loc object) (self : loc)
    (instance : option PyTree) : gmap loc object * loc :=
  match instance with
  | None => (h, self)
  | Some i => alloc h (OPartial self [i] [])
  end.

(** Calling the object at a reference: a wrapper runs [__call__]; a
    [Partial] calls its function with
    [( *self.args, *args, **kwargs, **self.keywords )]. *)
Fixpoint call_object (fuel : nat) (h : gmap loc object) (l : loc)
    (args : list PyTree) (kwargs : list (string * PyTree)) : action :=
  match fuel with
  | O => Done (Raise (Exn "RecursionError" "maximum recursion depth exceeded"))
  | S n =>
      match h !! l with
      | Some (OWrapper w) => invoke w args kwargs
      | Some (OPartial func pargs keywords) =>
          call_object n h func (pargs ++ args) (kwargs ++ keywords)
      | None => Done (Raise (Exn "ReferenceError" "no such object"))
      end
  end.

(** *** The factory *)

(** Modelled from the spec: [module_update_wrapper] of
    [equinox/_module.py], which is not among the sources: it gives the
    wrapper the name and documentation of the wrapped callable, with no
    effect on behaviour, and returns the wrapper. *)
Definition module_update_wrapper (wrapper : _ShardMapWrapper)
    : _ShardMapWrapper := wrapper.

(** The keyword arguments a [functools.partial] of the factory holds. *)
Record factory_keywords := {
  kw_out_specs : PyTree;
  kw_in_specs : PyTree;
  kw_mesh : option Mesh;
  kw_axis_names : gset string;
  kw_check_vma : bool
}.

Inductive factory_result :=
| Decorator (p : factory_keywords)
| Wrapped (w : _ShardMapWrapper).

(** [filter_shard_map(fun=sentinel, *, out_specs, in_specs, mesh,
    axis_names, check_vma)], every keyword given; [fun_ = None] is the
    sentinel. *)
Definition filter_shard_map_full (fun_ : option Callable)
    (out_specs in_specs : PyTree) (mesh : option Mesh)
    (axis_names : gset string) (check_vma : bool) : factory_result :=
  match fun_ with
  | None =>
      Decorator {| kw_out_specs := out_specs; kw_in_specs := in_specs;
                   kw_mesh := mesh; kw_axis_names := axis_names;
                   kw_check_vma := check_vma |}
  | Some fn =>
      let wrapper :=
        {| _fun := fn; _out_specs := out_specs; _in_specs := in_specs;
           _mesh := mesh; _axis_names := axis_names;
           _check_vma := check_vma |} in
      Wrapped (module_update_wrapper wrapper)
  end.

(** The same with the optional keywords left out ([None]): the defaults of
    the signature are [mesh=None], [axis_names=frozenset()] and
    [check_vma=True]. *)
Definition filter_shard_map (fun_ : option Callable)
    (out_specs in_specs : PyTree) (mesh : option (option Mesh))
    (axis_names : option (gset string)) (check_vma : option bool)
    : factory_result :=
  filter_shard_map_full fun_ out_specs in_specs
    (default None mesh) (default ∅ axis_names) (default true check_vma).

(** Applying what the factory returned to a callable: the
    [functools.partial] calls the factory with the callable and the
    keywords it holds; a wrapper is called with the callable as its one
    positional argument. *)
Definition apply_decorator (p : factory_keywords) (fn : Callable)
    : factory_result :=
  filter_shard_map_full (Some fn) (kw_out_specs p) (kw_in_specs p)
    (kw_mesh p) (kw_axis_names p) (kw_check_vma p).

(** *** The example of the tests: [f(x) = (x + 1.0, "metadata")] *)

Definition ones (n : nat) : Array := mkArray [n] (repeat 1%Q n).

Definition add_one (a : Array) : Array :=
  mkArray (shape a) (map (fun q => Qplus q 1) (entries a)).

Definition metadata_fun : Callable := fun t =>
  match t with
  | Node KTuple [Arr x] => Ok (Tuple [Arr (add_one x); Obj (OStr "metadata")])
  | _ => Raise (Exn "TypeError" "f() takes 1 positional argument")
  end.

Definition metadata_wrapper : _ShardMapWrapper :=
  {| _fun := metadata_fun;
     _out_specs := Tuple [Obj (OSpec [Some "batch"]); Obj (OSpec [])];
     _in_specs := Obj (OSpec [Some "batch"]);
     _mesh := Some (mkMesh [("batch", 2%nat)]);
     _axis_names := ∅;
     _check_vma := true |}.

End ShardMap.

(** ** The batch-norm layer *)

Module BatchNorm.

Definition dtype := string.

(** What the layer uses of Python's numbers and of jax, jax.numpy and
    jax.lax.  A value of [V] is a Python number or a jax array; the four
    arithmetic operators and [**] are Python's, with the broadcasting of
    the array library.  The two uses of [jax.vmap] may raise, the first
    with the [NameError] of an unbound axis name. *)
Class Jax (V : Type) := {
  py_int : Z -> V;
  py_float : Q -> V;
  add : V -> V -> V;
  sub : V -> V -> V;
  mul : V -> V -> V;
  truediv : V -> V -> V;
  pow : V -> V -> V;
  x_dtype : V -> dtype;
  default_floating_dtype : dtype;
  jnp_array_bool : bool -> V;
  jnp_array_int : Z -> V;
  jnp_array : Q -> dtype -> V;
  jnp_zeros : nat -> dtype -> V;
  jnp_ones : nat -> dtype -> V;
  jnp_empty : nat -> dtype -> V;
  jnp_mean : V -> V;
  jnp_conj : V -> V;
  jnp_maximum : V -> V -> V;
  jnp_sqrt : V -> V;
  lax_pmean : V -> string -> V;
  lax_select : V -> V -> V -> V;
  jax_vmap1 : (V -> V * V) -> V -> result (V * V);
  jax_vmap5 : (V -> V -> V -> option V -> option V -> result V) ->
              V -> V -> V -> option V -> option V -> result V;
  lax_select_true : forall a b, lax_select (jnp_array_bool true) a b = a;
  lax_select_false : forall a b, lax_select (jnp_array_bool false) a b = b
}.

Declare Scope jax_scope.
Delimit Scope jax_scope with jax.
Infix "+." := add (at level 50, left associativity) : jax_scope.
Infix "-." := sub (at level 50, left associativity) : jax_scope.
Infix "*." := mul (at level 40, left associativity) : jax_scope.
Infix "/." := truediv (at level 40, left associativity) : jax_scope.
Infix "**." := pow (at level 30, right associativity) : jax_scope.

Section Layer.
Context {V : Type} `{Jax V}.
Local Open Scope jax_scope.

(** What a slot of the state holds: an array or a tuple. *)
Inductive sval :=
| SArr (a : V)
| STuple (items : list sval).

Record StateIndex := mkStateIndex { marker : positive; init : sval }.

(** Modelled from the spec: the State container of
    [equinox/nn/_stateful.py], which is not among the sources: keyed
    slots, [state.get(key) -> value] and
    [state.set(key, value) -> new_state], the state a persistent value
    threaded through the calls.  Reading a slot the state does not have
    raises. *)
Definition get (state : gmap positive sval) (item : StateIndex)
    : result sval :=
  match state !! marker item with
  | Some v => Ok v
  | None => Raise (Exn "KeyError" "Cannot get state using the provided `eqx.nn.StateIndex`")
  end.

Definition set (state : gmap positive sval) (item : StateIndex)
    (v : sval) : gmap positive sval :=
  <[marker item := v]> state.

Definition unpack_error : exn := Exn "TypeError" "cannot unpack".

(** The target [a] of an assignment, [a] an array. *)
Definition as_array (v : sval) : result V :=
  match v with
  | SArr a => Ok a
  | STuple _ => Raise unpack_error
  end.

(** The targets [a, b] of an assignment. *)
Definition unpack2 (v : sval) : result (sval * sval) :=
  match v with
  | STuple [a; b] => Ok (a, b)
  | _ => Raise unpack_error
  end.

(** The targets [a, b], both arrays. *)
Definition unpack_pair (v : sval) : result (V * V) :=
  '(a, b) ← unpack2 v;
  a ← as_array a;
  b ← as_array b;
  mret (a, b).

Definition pack_pair (p : V * V) : sval := STuple [SArr p.1; SArr p.2].

(** [class BatchNorm(StatefulLayer)] *)
Record BatchNorm := {
  weight : option V;
  bias : option V;
  ema_first_time_index : option StateIndex;
  ema_state_index : option StateIndex;
  batch_counter : option StateIndex;
  batch_state_index : option StateIndex;
  axis_name : string;
  inference : bool;
  input_size : nat;
  eps : V;
  channelwise_affine : bool;
  momentum : V;
  mode : string
}.

(** [BatchNorm.__init__]; [StateIndex(init)] takes a new marker, here
    the next ones from [fresh] on. *)
Definition __init__ (fresh : positive) (input_size : nat)
    (axis_name : string) (mode : string) (eps : V)
    (channelwise_affine : bool) (momentum : V) (inference : bool)
    (dtype_ : option dtype) : result BatchNorm :=
  if negb (String.eqb mode "ema" || String.eqb mode "batch")
  then Raise (Exn "ValueError" "Invalid mode, must be 'ema' or 'batch'.")
  else
    let dtype_ := default default_floating_dtype dtype_ in
    let '(weight, bias) :=
      if channelwise_affine
      then (Some (jnp_ones input_size dtype_), Some (jnp_zeros input_size dtype_))
      else (None, None) in
    let ema := String.eqb mode "ema" in
    let init_buffers :=
      pack_pair (jnp_empty input_size dtype_, jnp_empty input_size dtype_) in
    let init_hidden :=
      pack_pair (jnp_zeros input_size dtype_, jnp_ones input_size dtype_) in
    let init_avg :=
      pack_pair (jnp_zeros input_size dtype_, jnp_ones input_size dtype_) in
    Ok {| weight := weight;
          bias := bias;
          ema_first_time_index :=
            if ema then Some (mkStateIndex fresh (SArr (jnp_array_bool true)))
            else None;
          ema_state_index :=
            if ema then Some (mkStateIndex (Pos.succ fresh) init_buffers)
            else None;
          batch_counter :=
            if ema then None
            else Some (mkStateIndex fresh (SArr (jnp_array_int 0)));
          batch_state_index :=
            if ema then None
            else Some (mkStateIndex (Pos.succ fresh)
                         (STuple [init_hidden; init_avg]));
          axis_name := axis_name;
          inference := inference;
          input_size := input_size;
          eps := eps;
          channelwise_affine := channelwise_affine;
          momentum := momentum;
          mode := mode |}.

(** The closure [_stats] of [__call__]. *)
Definition _stats (self : BatchNorm) (y : V) : V * V :=
  let mean := jnp_mean y in
  let mean := lax_pmean mean (axis_name self) in
  let var := jnp_mean ((y -. mean) *. jnp_conj (y -. mean)) in
  let var := lax_pmean var (axis_name self) in
  let var := jnp_maximum (py_float 0) var in
  (mean, var).

Definition none_operand : exn :=
  Exn "TypeError" "unsupported operand type(s): 'NoneType'".

(** The closure [_norm] of [__call__], the same in both modes. *)
Definition _norm (self : BatchNorm) (y m v : V) (w b : option V)
    : result V :=
  let out := (y -. m) /. jnp_sqrt (v +. eps self) in
  if channelwise_affine self then
    match w, b with
    | Some w, Some b => Ok (out *. w +. b)
    | _, _ => Raise none_operand
    end
  else Ok out.

Definition assertion_error : exn := Exn "AssertionError" "".

(** The [ema] branch of [__call__], [inference] already resolved. *)
Definition call_ema (self : BatchNorm) (x : V)
    (state : gmap positive sval) (inference : bool)
    : result (V * gmap positive sval) :=
  match ema_first_time_index self, ema_state_index self with
  | Some first_time_index, Some state_index =>
      '(running_mean, running_var, state) ←
        (if inference then
           '(running_mean, running_var) ← get state state_index ≫= unpack_pair;
           mret (running_mean, running_var, state)
         else
           first_time ← get state first_time_index ≫= as_array;
           let state := set state first_time_index (SArr (jnp_array_bool false)) in
           '(batch_mean, batch_var) ← jax_vmap1 (_stats self) x;
           '(running_mean, running_var) ← get state state_index ≫= unpack_pair;
           let momentum := momentum self in
           let running_mean :=
             (py_int 1 -. momentum) *. batch_mean +. momentum *. running_mean in
           let running_var :=
             (py_int 1 -. momentum) *. batch_var +. momentum *. running_var in
           let running_mean := lax_select first_time batch_mean running_mean in
           let running_var := lax_select first_time batch_var running_var in
           let state := set state state_index (pack_pair (running_mean, running_var)) in
           mret (running_mean, running_var, state));
      out ← jax_vmap5 (_norm self) x running_mean running_var
              (weight self) (bias self);
      mret (out, state)
  | _, _ => Raise assertion_error
  end.

(** The other branch of [__call__], [inference] already resolved. *)
Definition call_batch (self : BatchNorm) (x : V)
    (state : gmap positive sval) (inference : bool)
    : result (V * gmap positive sval) :=
  match batch_state_index self, batch_counter self with
  | Some state_index, Some counter_index =>
      '(mean, var, state) ←
        (if inference then
           '(_, avg) ← get state state_index ≫= unpack2;
           '(mean, var) ← unpack_pair avg;
           mret (mean, var, state)
         else
           '(batch_mean, batch_var) ← jax_vmap1 (_stats self) x;
           counter ← get state counter_index ≫= as_array;
           '(hidden, running) ← get state state_index ≫= unpack2;
           '(hidden_mean, hidden_var) ← unpack_pair hidden;
           '(running_mean, running_var) ← unpack_pair running;
           let decay := momentum self in
           let one := jnp_array 1 (x_dtype x) in
           let new_hidden_mean :=
             hidden_mean *. decay +. batch_mean *. (one -. decay) in
           let new_hidden_var :=
             hidden_var *. decay +. batch_var *. (one -. decay) in
           let new_counter := counter +. py_int 1 in
           let decay_power := decay **. new_counter in
           let new_running_mean := new_hidden_mean /. (one -. decay_power) in
           let new_running_var := new_hidden_var /. (one -. decay_power) in
           let state := set state counter_index (SArr new_counter) in
           let new_state_data :=
             STuple [pack_pair (new_hidden_mean, new_hidden_var);
                     pack_pair (new_running_mean, new_running_var)] in
           let state := set state state_index new_state_data in
           mret (batch_mean, batch_var, state));
      out ← jax_vmap5 (_norm self) x mean var (weight self) (bias self);
      mret (out, state)
  | _, _ => Raise assertion_error
  end.

(** [if inference is None: inference = self.inference] *)
Definition resolve_inference (self : BatchNorm) (inference_ : option bool)
    : bool :=
  match inference_ with
  | None => inference self
  | Some b => b
  end.

(** [BatchNorm.__call__(self, x, state, *, key=None, inference=None)];
    [key] is ignored by the code and left out. *)
Definition __call__ (self : BatchNorm) (x : V)
    (state : gmap positive sval) (inference_ : option bool)
    : result (V * gmap positive sval) :=
  let inference := resolve_inference self inference_ in
  if String.eqb (mode self) "ema"
  then call_ema self x state inference
  else call_batch self x state inference.

(** The indices of a layer that is in the given mode: both are there,
    and their markers differ. *)
Definition indices (self : BatchNorm) : option (StateIndex * StateIndex) :=
  if String.eqb (mode self) "ema"
  then match ema_first_time_index self, ema_state_index self with
       | Some a, Some b => Some (a, b)
       | _, _ => None
       end
  else match batch_counter self, batch_state_index self with
       | Some a, Some b => Some (a, b)
       | _, _ => None
       end.

(** The statistics the layer keeps in a state, whatever the mode. *)
Definition running_statistics (self : BatchNorm)
    (state : gmap positive sval) : result (V * V) :=
  if String.eqb (mode self) "ema"
  then match ema_state_index self with
       | Some i => get state i ≫= unpack_pair
       | None => Raise assertion_error
       end
  else match batch_state_index self with
       | Some i =>
           '(_, avg) ← get state i ≫= unpack2;
           unpack_pair avg
       | None => Raise assertion_error
       end.

(** A state is ready for a training call of the layer when it has the two
    slots of the layer's mode, each of the shape the call unpacks. *)
Definition state_ready (self : BatchNorm) (state : gmap positive sval)
    : bool :=
  match indices self with
  | Some (a, b) =>
      is_ok (get state a ≫= as_array) &&
      (if String.eqb (mode self) "ema"
       then is_ok (get state b ≫= unpack_pair)
       else is_ok ('(hidden, running) ← get state b ≫= unpack2;
                   _ ← unpack_pair hidden;
                   unpack_pair running))
  | None => false
  end.

(** The state that holds the initial value of every index of the layer. *)
Definition initial_state (self : BatchNorm) : gmap positive sval :=
  let put (i : option StateIndex) (state : gmap positive sval) :=
    match i with
    | Some i => <[marker i := init i]> state
    | None => state
    end in
  put (ema_first_time_index self)
    (put (ema_state_index self)
       (put (batch_counter self)
          (put (batch_state_index self) ∅))).
End Layer.

Arguments sval V : clear implicits.
Arguments StateIndex V : clear implicits.
Arguments BatchNorm V : clear implicits.

(** *** Symbolic numbers

    The free instance of the numeric interface: a value is the expression
    that computes it.  [TSlice x] is what the function under [jax.vmap]
    sees of [x], and [TStack e] the result of the [jax.vmap]. *)
Inductive term :=
| TInt (z : Z)
| TFloat (q : Q)
| TBool (b : bool)
| TIntArray (z : Z)
| TArray (q : Q) (dt : dtype)
| TFull (q : Q) (n : nat) (dt : dtype)
| TEmpty (n : nat) (dt : dtype)
| TInput (name : string)
| TAdd (a b : term)
| TSub (a b : term)
| TMul (a b : term)
| TDiv (a b : term)
| TPow (a b : term)
| TMean (a : term)
| TConj (a : term)
| TMaximum (a b : term)
| TSqrt (a : term)
| TPmean (a : term) (axis : string)
| TSelect (c a b : term)
| TSlice (a : term)
| TStack (a : term).

Definition term_select (c a b : term) : term :=
  match c with
  | TBool true => a
  | TBool false => b
  | _ => TSelect c a b
  end.

#[export] Instance term_jax : Jax term := {|
  py_int := TInt;
  py_float := TFloat;
  add := TAdd;
  sub := TSub;
  mul := TMul;
  truediv := TDiv;
  pow := TPow;
  x_dtype := fun _ => "float32";
  default_floating_dtype := "float32";
  jnp_array_bool := TBool;
  jnp_array_int := TIntArray;
  jnp_array := TArray;
  jnp_zeros := TFull 0;
  jnp_ones := TFull 1;
  jnp_empty := TEmpty;
  jnp_mean := TMean;
  jnp_conj := TConj;
  jnp_maximum := TMaximum;
  jnp_sqrt := TSqrt;
  lax_pmean := TPmean;
  lax_select := term_select;
  jax_vmap1 := fun g x => let '(a, b) := g (TSlice x) in Ok (TStack a, TStack b);
  jax_vmap5 := fun g x m v w b =>
    TStack <$> g (TSlice x) (TSlice m) (TSlice v) (TSlice <$> w) (TSlice <$> b);
  lax_select_true := fun a b => eq_refl;
  lax_select_false := fun a b => eq_refl
|}.

(** *** Two layers of three channels, as [__init__] makes them *)

Definition example_layer (mode : string) : BatchNorm term :=
  match __init__ 1%positive 3 "batch" mode (TFloat (1 # 100000)) true
          (TFloat (99 # 100)) false None with
  | Ok layer => layer
  | Raise _ =>
      {| weight := None; bias := None; ema_first_time_index := None;
         ema_state_index := None; batch_counter := None;
         batch_state_index := None; axis_name := ""; inference := false;
         input_size := 0; eps := TFloat 0; channelwise_affine := false;
         momentum := TFloat 0; mode := mode |}
  end.

End BatchNorm.

(** * Properties of the filtering shard-map wrapper *)

Module ShardMapSpec.
Import ShardMap.

(** Induction over a tree together with the children of its nodes. *)
Lemma PyTree_nested_ind (P : PyTree -> Prop) :
  (forall a, P (Arr a)) ->
  (forall o, P (Obj o)) ->
  P PyNone ->
  (forall k cs, Forall P cs -> P (Node k cs)) ->
  forall t, P t.
Proof.
  intros HArr HObj HNone HNode.
  fix IH 1.
  intros [a | o | | k cs].
  - apply HArr.
  - apply HObj.
  - apply HNone.
  - apply HNode.
    induction cs as [| c cs IHcs]; constructor.
    + apply IH.
    + apply IHcs.
Qed.

(** [combine] undoes [partition], whatever the predicate. *)
Lemma combine_partition (p : PyTree -> bool) (t : PyTree) :
  combine (partition t p).1 (partition t p).2 = Ok t.
Proof.
  induction t as [a | o | | k cs IH] using PyTree_nested_ind; simpl.
  - destruct (p (Arr a)); reflexivity.
  - destruct (p (Obj o)); reflexivity.
  - reflexivity.
  - rewrite decide_True by reflexivity.
    induction IH as [| c cs Hc _ IHcs]; simpl.
    + reflexivity.
    + rewrite Hc. simpl.
      destruct ((fix children (xs ys : list PyTree) {struct xs} :=
                   match xs, ys with
                   | [], [] => Ok []
                   | x :: xs', y :: ys' =>
                       z ← combine x y; zs ← children xs' ys'; mret (z :: zs)
                   | _, _ => Raise structure_error
                   end)
                  (map fst (map (fun c => partition c p) cs))
                  (map snd (map (fun c => partition c p) cs)))
        as [zs | e] eqn:E; simpl in *.
      * injection IHcs as ->. reflexivity.
      * discriminate IHcs.
Qed.

(** The first half of [partition ... is_array] has no leaf that is not an
    array: only arrays reach the primitive. *)
Lemma partition_dynamic_leaves (t : PyTree) :
  static_leaves (partition t is_array).1 = [].
Proof.
  induction t as [a | o | | k cs IH] using PyTree_nested_ind; simpl; try reflexivity.
  induction IH as [| c cs Hc _ IHcs]; simpl.
  - reflexivity.
  - rewrite Hc. simpl. apply IHcs.
Qed.

(** The second half has every leaf that is not an array, in order. *)
Lemma partition_static_leaves (t : PyTree) :
  static_leaves (partition t is_array).2 = static_leaves t.
Proof.
  induction t as [a | o | | k cs IH] using PyTree_nested_ind; simpl; try reflexivity.
  induction IH as [| c cs Hc _ IHcs]; simpl.
  - reflexivity.
  - rewrite Hc. f_equal. apply IHcs.
Qed.

(** X4. The same for any tree collaborators that return on the arguments and
    on the output and whose [combine] undoes their [partition] there: with
    the primitive applying the mapped function once, the call returns what
    the wrapped function returns. *)
Lemma call_once_contract
    (part : PyTree -> (PyTree -> bool) -> result (PyTree * PyTree))
    (comb : PyTree -> PyTree -> result PyTree) (isarr : PyTree -> bool)
    (self : _ShardMapWrapper) (args : list PyTree)
    (dynamic_args static_args out dynamic_out static_out : PyTree) :
  part (Tuple args) isarr = Ok (dynamic_args, static_args) ->
  comb dynamic_args static_args = Ok (Tuple args) ->
  _fun self (Tuple args) = Ok out ->
  part out isarr = Ok (dynamic_out, static_out) ->
  comb dynamic_out static_out = Ok out ->
  run shard_map_once (__call__ part comb isarr self args []) = Ok out.
Proof.
  intros Hpart Hcomb Hfun Hpart' Hcomb'. unfold __call__.
  cbn [length Nat.eqb negb]. rewrite Hpart.
  cbn [run shard_map_once operands f]. unfold _fun_wrapper.
  rewrite Hcomb. cbn [mbind result_bind]. rewrite Hfun.
  cbn [mbind result_bind]. rewrite Hpart'. exact Hcomb'.
Qed.

(** With the primitive applying the mapped function once, a call without
    keyword arguments is the wrapped function applied to the arguments,
    exception or value. *)
Lemma invoke_once (self : _ShardMapWrapper) (args : list PyTree) :
  run shard_map_once (invoke self args []) = _fun self (Tuple args).
Proof.
  unfold invoke, __call__. cbn [length Nat.eqb negb].
  pose proof (combine_partition is_array (Tuple args)) as Hargs.
  destruct (partition (Tuple args) is_array) as [d s] eqn:Ep.
  cbn [run shard_map_once operands f]. unfold _fun_wrapper.
  cbn [fst snd] in Hargs. rewrite Hargs. cbn [mbind result_bind].
  destruct (_fun self (Tuple args)) as [out | e]; [| reflexivity].
  cbn [mbind result_bind].
  pose proof (combine_partition is_array out) as Hout.
  destruct (partition out is_array) as [d' s'].
  exact Hout.
Qed.

(** C1. With the primitive applying the mapped function once, a call with
    positional arguments only hands the primitive a tree without any
    non-array leaf, the wrapped function receives the very arguments of the
    call (the static half holds every non-array leaf and the two halves
    recombine to the argument tuple), and the call returns the very value
    the wrapped function returns: same tree shape, same non-array leaves. *)
Theorem invoke_passthrough (self : _ShardMapWrapper) (args : list PyTree)
    (out : PyTree) :
  _fun self (Tuple args) = Ok out ->
  let dynamic_args := (partition (Tuple args) is_array).1 in
  let static_args := (partition (Tuple args) is_array).2 in
  static_leaves dynamic_args = [] /\
  static_leaves static_args = static_leaves (Tuple args) /\
  combine dynamic_args static_args = Ok (Tuple args) /\
  static_leaves (partition out is_array).1 = [] /\
  static_leaves (partition out is_array).2 = static_leaves out /\
  exists res,
    run shard_map_once (invoke self args []) = Ok res /\
    res = out /\
    tree_shape res = tree_shape out /\
    static_leaves res = static_leaves out.
Proof.
  intros Hout dynamic_args static_args.
  split; [apply partition_dynamic_leaves |].
  split; [apply partition_static_leaves |].
  split; [apply combine_partition |].
  split; [apply partition_dynamic_leaves |].
  split; [apply partition_static_leaves |].
  exists out. rewrite invoke_once. auto.
Qed.

Lemma invoke_passthrough_witness :
  exists res,
    run shard_map_once (invoke metadata_wrapper [Arr (ones 4)] []) = Ok res /\
    static_leaves res = [OStr "metadata"].
Proof.
  destruct (invoke_passthrough metadata_wrapper [Arr (ones 4)]
              (Tuple [Arr (add_one (ones 4)); Obj (OStr "metadata")]) eq_refl)
    as (_ & _ & _ & _ & _ & res & Hrun & _ & _ & Hleaves).
  exists res. split; [exact Hrun | exact Hleaves].
Defined.

(** C2. Whatever the tree collaborators are, a call that reaches the
    primitive passes it the configured mesh, the one-tuple of the configured
    [in_specs], the pair of the configured [out_specs] and an empty
    partition spec, the configured axis names and [check_vma], and the
    dynamic arguments as the one operand; and the mapped function recombines
    its argument with the static arguments, calls the wrapped function,
    partitions the output and returns the dynamic half with the static half
    in a [Static]. *)
Theorem dispatch_arguments
    (part : PyTree -> (PyTree -> bool) -> result (PyTree * PyTree))
    (comb : PyTree -> PyTree -> result PyTree) (isarr : PyTree -> bool)
    (self : _ShardMapWrapper) (args : list PyTree)
    (dynamic_args static_args : PyTree) :
  part (Tuple args) isarr = Ok (dynamic_args, static_args) ->
  exists c k,
    __call__ part comb isarr self args [] = Dispatch c k /\
    mesh c = _mesh self /\
    in_specs c = Node KTuple [_in_specs self] /\
    out_specs c = Node KTuple [_out_specs self; Obj (OSpec [])] /\
    axis_names c = _axis_names self /\
    check_vma c = _check_vma self /\
    operands c = [dynamic_args] /\
    forall x _args _out _dynamic_out _static_out,
      comb x static_args = Ok _args ->
      _fun self _args = Ok _out ->
      part _out isarr = Ok (_dynamic_out, _static_out) ->
      f c x = Ok (_dynamic_out, MkStatic _static_out).
Proof.
  intros Hpart. unfold __call__. cbn [length Nat.eqb negb]. rewrite Hpart.
  eexists _, _. split; [reflexivity |]. cbn [mesh in_specs out_specs axis_names check_vma operands f].
  repeat (split; [reflexivity |]).
  intros x a o d s Ha Ho Hp. unfold _fun_wrapper.
  rewrite Ha. cbn [mbind result_bind]. rewrite Ho.
  cbn [mbind result_bind]. rewrite Hp. reflexivity.
Qed.

Lemma dispatch_arguments_witness :
  exists c k,
    invoke metadata_wrapper [Arr (ones 4); Obj (OStr "tag")] [] = Dispatch c k /\
    in_specs c = Tuple [Obj (OSpec [Some "batch"])] /\
    out_specs c =
      Tuple [Tuple [Obj (OSpec [Some "batch"]); Obj (OSpec [])]; Obj (OSpec [])] /\
    operands c = [Tuple [Arr (ones 4); PyNone]].
Proof.
  destruct (dispatch_arguments (fun t p => Ok (partition t p)) combine is_array
              metadata_wrapper [Arr (ones 4); Obj (OStr "tag")]
              (Tuple [Arr (ones 4); PyNone]) (Tuple [PyNone; Obj (OStr "tag")])
              eq_refl)
    as (c & k & Hcall & _ & Hin & Hout & _ & _ & Hops & _).
  exists c, k. repeat split; assumption.
Defined.

(** C3. Whatever the tree collaborators are, even ones that raise, and
    however many positional arguments there are, a call with a keyword
    argument ends with the usage error, the primitive not reached; a call
    without keyword arguments raises only what [partition] raises, and
    reaches the primitive when [partition] returns. *)
Theorem kwargs_rejected
    (part : PyTree -> (PyTree -> bool) -> result (PyTree * PyTree))
    (comb : PyTree -> PyTree -> result PyTree) (isarr : PyTree -> bool)
    (self : _ShardMapWrapper) (args : list PyTree)
    (kwargs : list (string * PyTree)) :
  (kwargs <> [] ->
   __call__ part comb isarr self args kwargs = Done (Raise kwargs_error)) /\
  (kwargs = [] ->
   (forall e, part (Tuple args) isarr = Raise e ->
      __call__ part comb isarr self args kwargs = Done (Raise e)) /\
   (forall halves, part (Tuple args) isarr = Ok halves ->
      exists c k, __call__ part comb isarr self args kwargs = Dispatch c k)).
Proof.
  split.
  - intros Hne. destruct kwargs as [| kw kwargs]; [contradiction |]. reflexivity.
  - intros ->. unfold __call__. cbn [length Nat.eqb negb]. split.
    + intros e ->. reflexivity.
    + intros [d s] ->. eexists _, _. reflexivity.
Qed.

Lemma kwargs_rejected_witness :
  (forall args,
     __call__ (fun _ _ => Raise structure_error) combine is_array
       metadata_wrapper args [("x", PyNone)] = Done (Raise kwargs_error)) /\
  invoke metadata_wrapper [] [("x", PyNone)] = Done (Raise kwargs_error) /\
  invoke metadata_wrapper [PyNone] [("x", PyNone)] = Done (Raise kwargs_error) /\
  invoke metadata_wrapper [PyNone; PyNone] [("x", PyNone); ("y", PyNone)]
    = Done (Raise kwargs_error) /\
  exists c k, invoke metadata_wrapper [PyNone; PyNone] [] = Dispatch c k.
Proof.
  split; [| split; [| split; [| split]]].
  - intros args.
    apply (proj1 (kwargs_rejected (fun _ _ => Raise structure_error) combine
                    is_array metadata_wrapper args [("x", PyNone)])).
    discriminate.
  - apply (proj1 (kwargs_rejected _ _ _ _ _ _)). discriminate.
  - apply (proj1 (kwargs_rejected _ _ _ _ _ _)). discriminate.
  - apply (proj1 (kwargs_rejected _ _ _ _ _ _)). discriminate.
  - apply (proj2 (proj2 (kwargs_rejected (fun t p => Ok (partition t p)) combine
                    is_array metadata_wrapper [PyNone; PyNone] []) eq_refl)
             (partition (Tuple [PyNone; PyNone]) is_array)).
    reflexivity.
Defined.

(** One access through an instance: a new [Partial] is stored, it refers
    to the wrapper and holds the instance, every object already stored is
    as it was, and calling it is calling the wrapper with the instance
    first. *)
Lemma get_instance (h : gmap loc object) (self : loc) (w : _ShardMapWrapper)
    (instance : PyTree) :
  h !! self = Some (OWrapper w) ->
  let h' := (__get__ h self (Some instance)).1 in
  let bound := (__get__ h self (Some instance)).2 in
  h !! bound = None /\
  h' !! bound = Some (OPartial self [instance] []) /\
  (forall l, is_Some (h !! l) -> h' !! l = h !! l) /\
  forall n args kwargs,
    call_object (S (S n)) h' bound args kwargs
    = invoke w (instance :: args) kwargs.
Proof.
  intros Hself. cbn [__get__ alloc fst snd].
  assert (Hfresh : h !! fresh (dom h) = None).
  { apply not_elem_of_dom. apply is_fresh. }
  assert (Hframe : forall l, is_Some (h !! l) ->
            <[fresh (dom h) := OPartial self [instance] []]> h !! l = h !! l).
  { intros l [o Ho]. apply lookup_insert_ne. intros <-. congruence. }
  split; [exact Hfresh |].
  split; [apply lookup_insert_eq |].
  split; [exact Hframe |].
  intros n args kwargs. cbn [call_object].
  rewrite lookup_insert_eq. rewrite Hframe by eauto. rewrite Hself.
  cbn [app]. rewrite app_nil_r. reflexivity.
Qed.

(** C4. Access through the class returns the reference to the wrapper itself
    and stores nothing.  Access through an instance returns a new callable
    that refers to the wrapper, which is neither changed nor copied, and
    that calls it with the instance as first positional argument.  Two
    accesses for two owners give two callables, each calling with its own
    owner, and the wrapper is the same object after both. *)
Theorem get_binds_owner (h : gmap loc object) (self : loc)
    (w : _ShardMapWrapper) (owner1 owner2 : PyTree) :
  h !! self = Some (OWrapper w) ->
  __get__ h self None = (h, self) /\
  let h1 := (__get__ h self (Some owner1)).1 in
  let bound1 := (__get__ h self (Some owner1)).2 in
  let h2 := (__get__ h1 self (Some owner2)).1 in
  let bound2 := (__get__ h1 self (Some owner2)).2 in
  bound1 <> self /\ bound2 <> self /\ bound1 <> bound2 /\
  h1 !! bound1 = Some (OPartial self [owner1] []) /\
  h2 !! bound1 = Some (OPartial self [owner1] []) /\
  h2 !! bound2 = Some (OPartial self [owner2] []) /\
  h1 !! self = Some (OWrapper w) /\
  h2 !! self = Some (OWrapper w) /\
  (forall l, is_Some (h !! l) -> h2 !! l = h !! l) /\
  forall n x kwargs,
    call_object (S (S n)) h1 bound1 x kwargs = invoke w (owner1 :: x) kwargs /\
    call_object (S (S n)) h2 bound1 x kwargs = invoke w (owner1 :: x) kwargs /\
    call_object (S (S n)) h2 bound2 x kwargs = invoke w (owner2 :: x) kwargs.
Proof.
  intros Hself. split; [reflexivity |].
  intros h1 bound1 h2 bound2.
  destruct (get_instance h self w owner1 Hself) as (Hnew1 & Hb1 & Hframe1 & Hcall1).
  fold h1 bound1 in Hnew1, Hb1, Hframe1, Hcall1.
  assert (Hself1 : h1 !! self = Some (OWrapper w)).
  { rewrite Hframe1 by eauto. exact Hself. }
  destruct (get_instance h1 self w owner2 Hself1) as (Hnew2 & Hb2 & Hframe2 & Hcall2).
  fold h2 bound2 in Hnew2, Hb2, Hframe2, Hcall2.
  assert (Hb12 : h2 !! bound1 = Some (OPartial self [owner1] [])).
  { rewrite Hframe2 by eauto. exact Hb1. }
  assert (Hself2 : h2 !! self = Some (OWrapper w)).
  { rewrite Hframe2 by eauto. exact Hself1. }
  split; [intros E; rewrite E in Hnew1; congruence |].
  split; [intros E; rewrite E in Hnew2; congruence |].
  split; [intros E; rewrite E in Hb1; congruence |].
  repeat (split; [assumption |]).
  split.
  { intros l Hl. rewrite Hframe2; [apply Hframe1; exact Hl |].
    rewrite Hframe1 by exact Hl. exact Hl. }
  intros n x kwargs. split; [apply Hcall1 |]. split; [| apply Hcall2].
  cbn [call_object]. rewrite Hb12, Hself2. cbn [app]. rewrite app_nil_r.
  reflexivity.
Qed.

Lemma get_binds_owner_witness :
  let h : gmap loc object := {[ 1%positive := OWrapper metadata_wrapper ]} in
  let h1 := (__get__ h 1%positive (Some (Obj (ORef 7)))).1 in
  let bound1 := (__get__ h 1%positive (Some (Obj (ORef 7)))).2 in
  let h2 := (__get__ h1 1%positive (Some (Obj (ORef 8)))).1 in
  let bound2 := (__get__ h1 1%positive (Some (Obj (ORef 8)))).2 in
  call_object 2 h2 bound1 [Arr (ones 4)] []
    = invoke metadata_wrapper [Obj (ORef 7); Arr (ones 4)] [] /\
  call_object 2 h2 bound2 [Arr (ones 4)] []
    = invoke metadata_wrapper [Obj (ORef 8); Arr (ones 4)] [].
Proof.
  intros h h1 bound1 h2 bound2.
  destruct (get_binds_owner h 1%positive metadata_wrapper
              (Obj (ORef 7)) (Obj (ORef 8)) eq_refl)
    as (_ & _ & _ & _ & _ & _ & _ & _ & _ & _ & Hcalls).
  destruct (Hcalls 0%nat [Arr (ones 4)] []) as (_ & H1 & H2).
  split; [exact H1 | exact H2].
Defined.

(** C5. The factory called without a callable returns a function of one
    callable; applying it gives the wrapper that the factory called with
    the callable and the same keywords gives, so the two have the same
    configuration and make the same calls.  The keywords left out are
    [mesh=None], no axis name, and [check_vma=True].  The factory accepts
    every pair of spec trees and stores them as they are: it checks
    nothing. *)
Theorem factory_two_shapes (fn : Callable) (out_specs in_specs : PyTree)
    (mesh_ : option (option Mesh)) (axis_names_ : option (gset string))
    (check_vma_ : option bool) :
  exists p w,
    filter_shard_map None out_specs in_specs mesh_ axis_names_ check_vma_
      = Decorator p /\
    apply_decorator p fn = Wrapped w /\
    filter_shard_map (Some fn) out_specs in_specs mesh_ axis_names_ check_vma_
      = Wrapped w /\
    _fun w = fn /\ _out_specs w = out_specs /\ _in_specs w = in_specs /\
    _mesh w = match mesh_ with Some m => m | None => None end /\
    _axis_names w = match axis_names_ with Some a => a | None => ∅ end /\
    _check_vma w = match check_vma_ with Some b => b | None => true end /\
    filter_shard_map (Some fn) out_specs in_specs None None None
      = Wrapped {| _fun := fn; _out_specs := out_specs; _in_specs := in_specs;
                   _mesh := None; _axis_names := ∅; _check_vma := true |}.
Proof.
  eexists _, _. split; [reflexivity |]. split; [reflexivity |].
  split; [reflexivity |].
  destruct mesh_, axis_names_, check_vma_; repeat split; reflexivity.
Qed.

(** C6. Whatever the tree collaborators and the primitive are: a call ends
    before the primitive with an exception only for the usage error of
    keyword arguments or with the exception [partition] raised; an
    exception of the primitive is the exception of the call; after the
    primitive the call is what [combine] returns or raises; and inside the
    mapped function an exception of [combine], of the wrapped function or
    of [partition] is the exception of the mapped function. *)
Theorem errors_propagate
    (part : PyTree -> (PyTree -> bool) -> result (PyTree * PyTree))
    (comb : PyTree -> PyTree -> result PyTree) (isarr : PyTree -> bool)
    (self : _ShardMapWrapper) (args : list PyTree)
    (kwargs : list (string * PyTree)) :
  (forall e, __call__ part comb isarr self args kwargs = Done (Raise e) ->
     (kwargs <> [] /\ e = kwargs_error) \/
     (kwargs = [] /\ part (Tuple args) isarr = Raise e)) /\
  (forall v, __call__ part comb isarr self args kwargs <> Done (Ok v)) /\
  (forall c k, __call__ part comb isarr self args kwargs = Dispatch c k ->
     kwargs = [] /\
     (exists dynamic_args static_args,
        part (Tuple args) isarr = Ok (dynamic_args, static_args) /\
        (forall x e, comb x static_args = Raise e -> f c x = Raise e) /\
        (forall x a e, comb x static_args = Ok a ->
           _fun self a = Raise e -> f c x = Raise e) /\
        (forall x a o e, comb x static_args = Ok a ->
           _fun self a = Ok o -> part o isarr = Raise e -> f c x = Raise e)) /\
     (forall e, k (Raise e) = Raise e) /\
     (forall dynamic_out static_out,
        k (Ok (dynamic_out, static_out)) = comb dynamic_out (value static_out)) /\
     forall shard_map e,
       run shard_map (Dispatch c k) = Raise e ->
       shard_map c = Raise e \/
       exists dynamic_out static_out,
         shard_map c = Ok (dynamic_out, static_out) /\
         comb dynamic_out (value static_out) = Raise e).
Proof.
  unfold __call__.
  destruct kwargs as [| kw kwargs]; cbn [length Nat.eqb negb].
  - destruct (part (Tuple args) isarr) as [[d s] | e0] eqn:Hpart.
    + split; [discriminate |]. split; [discriminate |].
      intros c k [= <- <-]. split; [reflexivity |].
      split.
      { exists d, s. split; [reflexivity |]. cbn [f]. unfold _fun_wrapper.
        split; [intros x e ->; reflexivity |].
        split; [intros x a e -> Hf; cbn [mbind result_bind]; rewrite Hf; reflexivity |].
        intros x a o e -> Hf Hp. cbn [mbind result_bind]. rewrite Hf.
        cbn [mbind result_bind]. rewrite Hp. reflexivity. }
      split; [reflexivity |]. split; [reflexivity |].
      intros shard_map e. cbn [run].
      destruct (shard_map _) as [[dout sout] | e1]; cbn [mbind result_bind].
      * intros Hc. right. exists dout, sout. split; [reflexivity | exact Hc].
      * intros [= ->]. left. reflexivity.
    + split; [intros e [= ->]; right; split; reflexivity |].
      split; discriminate.
  - split; [intros e [= <-]; left; split; [discriminate | reflexivity] |].
    split; discriminate.
Qed.

Lemma errors_propagate_witness :
  let boom := Exn "ValueError" "in_specs do not match" in
  run (fun _ => Raise boom) (invoke metadata_wrapper [Arr (ones 4)] [])
    = Raise boom.
Proof.
  intros boom.
  destruct (errors_propagate (fun t p => Ok (partition t p)) combine is_array
              metadata_wrapper [Arr (ones 4)] [])
    as (_ & _ & H).
  destruct (H _ _ eq_refl) as (_ & _ & Hk & _).
  apply Hk.
Defined.

End ShardMapSpec.

(** * Properties of the batch-norm layer *)

Module BatchNormSpec.
Import BatchNorm.
Local Open Scope jax_scope.

Section Facts.
Context {V : Type} `{Jax V}.

Implicit Types (self : BatchNorm V) (state : gmap positive (sval V)).
Implicit Types (x : V) (a b : StateIndex V).

Lemma get_set_eq state a v : get (set state a v) a = Ok v.
Proof. unfold get, set. rewrite lookup_insert_eq. reflexivity. Qed.

Lemma get_set_ne state a b v :
  marker a <> marker b -> get (set state a v) b = get state b.
Proof. intros Hne. unfold get, set. rewrite lookup_insert_ne by exact Hne. reflexivity. Qed.

Lemma get_Ok state a v : get state a = Ok v <-> state !! marker a = Some v.
Proof.
  unfold get. destruct (state !! marker a); split; intros E; congruence.
Qed.

Lemma is_ok_bind {A B} (m : result A) (k : A -> result B) :
  is_ok (m ≫= k) = true -> exists v, m = Ok v /\ is_ok (k v) = true.
Proof. destruct m as [v | e]; [eauto | discriminate]. Qed.

Lemma is_ok_Ok {A} (m : result A) : is_ok m = true -> exists v, m = Ok v.
Proof. destruct m as [v | e]; [eauto | discriminate]. Qed.

Lemma as_array_Ok (v : sval V) (c : V) : as_array v = Ok c -> v = SArr c.
Proof. destruct v; cbn [as_array]; intros E; [injection E as -> | discriminate E]; reflexivity. Qed.

Lemma unpack2_Ok (v p q : sval V) : unpack2 v = Ok (p, q) -> v = STuple [p; q].
Proof.
  destruct v as [c | [| p' [| q' [| r items]]]]; cbn [unpack2]; intros E;
    try discriminate E.
  injection E as -> ->. reflexivity.
Qed.

Lemma unpack_pair_Ok (v : sval V) (c d : V) :
  unpack_pair v = Ok (c, d) -> v = STuple [SArr c; SArr d].
Proof.
  unfold unpack_pair. intros E.
  destruct (unpack2 v) as [[p q] |] eqn:E2; [| discriminate].
  apply unpack2_Ok in E2 as ->. cbn [mbind result_bind] in E.
  destruct p, q; cbn in E; try discriminate E.
  injection E as -> ->. reflexivity.
Qed.

(** *** What a training call computes *)

(** The state a training call in mode "batch" returns. *)
Lemma call_batch_training self x state (inference_ : option bool)
    (counter_index state_index : StateIndex V)
    (counter hidden_mean hidden_var running_mean running_var : V)
    (batch_mean batch_var : V) :
  String.eqb (mode self) "ema" = false ->
  resolve_inference self inference_ = false ->
  batch_counter self = Some counter_index ->
  batch_state_index self = Some state_index ->
  state !! marker counter_index = Some (SArr counter) ->
  state !! marker state_index
    = Some (STuple [STuple [SArr hidden_mean; SArr hidden_var];
                    STuple [SArr running_mean; SArr running_var]]) ->
  jax_vmap1 (_stats self) x = Ok (batch_mean, batch_var) ->
  let decay := momentum self in
  let one := jnp_array 1 (x_dtype x) in
  let new_counter := counter +. py_int 1 in
  let new_hidden_mean := hidden_mean *. decay +. batch_mean *. (one -. decay) in
  let new_hidden_var := hidden_var *. decay +. batch_var *. (one -. decay) in
  __call__ self x state inference_
  = (out ← jax_vmap5 (_norm self) x batch_mean batch_var (weight self) (bias self);
     mret (out,
           set (set state counter_index (SArr new_counter)) state_index
             (STuple
                [STuple [SArr new_hidden_mean; SArr new_hidden_var];
                 STuple [SArr (new_hidden_mean /. (one -. decay **. new_counter));
                         SArr (new_hidden_var /. (one -. decay **. new_counter))]]))).
Proof.
  intros Hmode Hinf Hci Hsi Hcounter Hstats Hbatch. cbv zeta.
  unfold __call__. rewrite Hmode, Hinf.
  unfold call_batch. rewrite Hsi, Hci, Hbatch. cbn [mbind result_bind].
  apply get_Ok in Hcounter, Hstats. rewrite Hcounter, Hstats.
  reflexivity.
Qed.

(** The state a training call in mode "ema" returns. *)
Lemma call_ema_training self x state (inference_ : option bool)
    (first_time_index state_index : StateIndex V)
    (first_time running_mean running_var batch_mean batch_var : V) :
  String.eqb (mode self) "ema" = true ->
  resolve_inference self inference_ = false ->
  ema_first_time_index self = Some first_time_index ->
  ema_state_index self = Some state_index ->
  marker first_time_index <> marker state_index ->
  state !! marker first_time_index = Some (SArr first_time) ->
  state !! marker state_index
    = Some (STuple [SArr running_mean; SArr running_var]) ->
  jax_vmap1 (_stats self) x = Ok (batch_mean, batch_var) ->
  let momentum := momentum self in
  let new_mean :=
    lax_select first_time batch_mean
      ((py_int 1 -. momentum) *. batch_mean +. momentum *. running_mean) in
  let new_var :=
    lax_select first_time batch_var
      ((py_int 1 -. momentum) *. batch_var +. momentum *. running_var) in
  __call__ self x state inference_
  = (out ← jax_vmap5 (_norm self) x new_mean new_var (weight self) (bias self);
     mret (out,
           set (set state first_time_index (SArr (jnp_array_bool false)))
             state_index (STuple [SArr new_mean; SArr new_var]))).
Proof.
  intros Hmode Hinf Hfi Hsi Hne Hflag Hstats Hbatch. cbv zeta.
  unfold __call__. rewrite Hmode, Hinf.
  unfold call_ema. rewrite Hfi, Hsi.
  apply get_Ok in Hflag, Hstats. rewrite Hflag.
  cbn [mbind result_bind as_array]. rewrite Hbatch. cbn [mbind result_bind].
  rewrite get_set_ne by exact Hne. rewrite Hstats.
  reflexivity.
Qed.

(** A training call that returns has read both slots of the layer. *)
Lemma training_returns_ready self x state (inference_ : option bool) :
  resolve_inference self inference_ = false ->
  is_ok (__call__ self x state inference_) = true ->
  state_ready self state = true /\
  is_ok (jax_vmap1 (_stats self) x) = true /\
  exists a b, indices self = Some (a, b) /\ marker a <> marker b.
Proof.
  intros Hinf. unfold __call__, state_ready, indices. rewrite Hinf.
  destruct (String.eqb (mode self) "ema") eqn:Hmode.
  - unfold call_ema.
    destruct (ema_first_time_index self) as [a |]; [| discriminate].
    destruct (ema_state_index self) as [b |]; [| discriminate].
    intros Hok. apply is_ok_bind in Hok as ([[rm rv] st] & Hbody & _).
    destruct (get state a ≫= as_array) as [ft |] eqn:Ha; [| discriminate].
    cbn [mbind result_bind] in Hbody |- * .
    destruct (jax_vmap1 (_stats self) x) as [[bm bv] |]; [| discriminate].
    cbn [mbind result_bind] in Hbody |- * .
    destruct (decide (marker a = marker b)) as [Heq | Hne].
    + exfalso. unfold get, set in Hbody. rewrite <- Heq in Hbody.
      rewrite lookup_insert_eq in Hbody. discriminate.
    + rewrite get_set_ne in Hbody by exact Hne.
      destruct (get state b ≫= unpack_pair) as [[rm' rv'] |]; [| discriminate].
      split; [reflexivity |]. split; [reflexivity |]. eauto.
  - unfold call_batch.
    destruct (batch_state_index self) as [b |]; [| discriminate].
    destruct (batch_counter self) as [a |]; [| discriminate].
    intros Hok. apply is_ok_bind in Hok as ([[m v] st] & Hbody & _).
    destruct (jax_vmap1 (_stats self) x) as [[bm bv] |]; [| discriminate].
    cbn [mbind result_bind] in Hbody |- * .
    destruct (get state a ≫= as_array) as [c |] eqn:Ha; [| discriminate].
    cbn [mbind result_bind] in Hbody |- * .
    destruct (get state b ≫= unpack2) as [[hidden running] |] eqn:Hb;
      [| discriminate].
    cbn [mbind result_bind] in Hbody |- * .
    destruct (unpack_pair hidden) as [[hm hv] |]; [| discriminate].
    cbn [mbind result_bind] in Hbody |- * .
    destruct (unpack_pair running) as [[rm rv] |]; [| discriminate].
    split; [reflexivity |]. split; [reflexivity |].
    exists a, b. split; [reflexivity |].
    intros Heq. unfold get in Ha, Hb. rewrite Heq in Ha.
    destruct (state !! marker b) as [[c' | items] |]; discriminate.
Qed.

(** What a ready state holds, by mode. *)
Lemma state_ready_slots self state a b :
  indices self = Some (a, b) ->
  state_ready self state = true ->
  marker a <> marker b /\
  exists c, state !! marker a = Some (SArr c) /\
  if String.eqb (mode self) "ema"
  then exists rm rv, state !! marker b = Some (STuple [SArr rm; SArr rv])
  else exists hm hv rm rv,
         state !! marker b
         = Some (STuple [STuple [SArr hm; SArr hv]; STuple [SArr rm; SArr rv]]).
Proof.
  intros Hidx. unfold state_ready. rewrite Hidx.
  intros [Ha Hb]%andb_prop.
  apply is_ok_Ok in Ha as [c Ha].
  destruct (get state a) as [va |] eqn:Hga; [| discriminate].
  cbn [mbind result_bind] in Ha. apply as_array_Ok in Ha as ->.
  apply get_Ok in Hga.
  assert (Hshape :
    if String.eqb (mode self) "ema"
    then exists rm rv, state !! marker b = Some (STuple [SArr rm; SArr rv])
    else exists hm hv rm rv,
           state !! marker b
           = Some (STuple [STuple [SArr hm; SArr hv]; STuple [SArr rm; SArr rv]])).
  { destruct (String.eqb (mode self) "ema").
    - apply is_ok_Ok in Hb as [[rm rv] Hb].
      destruct (get state b) as [vb |] eqn:Hgb; [| discriminate].
      cbn [mbind result_bind] in Hb. apply unpack_pair_Ok in Hb as ->.
      apply get_Ok in Hgb. eauto.
    - apply is_ok_bind in Hb as ([hidden running] & Hb & Hrest).
      destruct (get state b) as [vb |] eqn:Hgb; [| discriminate].
      cbn [mbind result_bind] in Hb. apply unpack2_Ok in Hb as ->.
      apply is_ok_bind in Hrest as ([hm hv] & Hh & Hr).
      apply unpack_pair_Ok in Hh as ->.
      apply is_ok_Ok in Hr as [[rm rv] Hr]. apply unpack_pair_Ok in Hr as ->.
      apply get_Ok in Hgb. eauto 6. }
  split; [| eauto].
  intros Heq. rewrite Heq in Hga.
  destruct (String.eqb (mode self) "ema").
  - destruct Hshape as (? & ? & E). congruence.
  - destruct Hshape as (? & ? & ? & ? & E). congruence.
Qed.

(** A layer made by [__init__] has the two indices of its mode, with the
    two markers taken, and its initial state is ready for a training
    call. *)
Lemma init_ready (fresh : positive) (n : nat) (axis mode_ : string)
    (eps_ : V) (affine : bool) (mom : V) (inf : bool) (dt : option dtype) self :
  __init__ fresh n axis mode_ eps_ affine mom inf dt = Ok self ->
  mode self = mode_ /\
  (mode_ = "ema" \/ mode_ = "batch") /\
  exists a b,
    indices self = Some (a, b) /\
    marker a = fresh /\ marker b = Pos.succ fresh /\
    initial_state self !! marker a = Some (init a) /\
    initial_state self !! marker b = Some (init b) /\
    state_ready self (initial_state self) = true.
Proof.
  unfold __init__.
  assert (Hne : fresh <> Pos.succ fresh) by lia.
  destruct (String.eqb mode_ "ema") eqn:Hema.
  - cbn [orb negb]. destruct affine; intros [= <-];
      (split; [reflexivity |]);
      (split; [left; apply String.eqb_eq; exact Hema |]);
      unfold indices, state_ready, initial_state, indices, get;
      cbn [mode ema_first_time_index ema_state_index batch_counter
           batch_state_index]; rewrite Hema;
      eexists _, _; (split; [reflexivity |]); cbn [marker init];
      rewrite lookup_insert_eq, lookup_insert_ne, lookup_insert_eq by exact Hne;
      repeat split.
  - cbn [orb]. destruct (String.eqb mode_ "batch") eqn:Hbatch; [| discriminate].
    cbn [negb]. destruct affine; intros [= <-];
      (split; [reflexivity |]);
      (split; [right; apply String.eqb_eq; exact Hbatch |]);
      unfold indices, state_ready, initial_state, indices, get;
      cbn [mode ema_first_time_index ema_state_index batch_counter
           batch_state_index]; rewrite Hema;
      eexists _, _; (split; [reflexivity |]); cbn [marker init];
      rewrite lookup_insert_eq, lookup_insert_ne, lookup_insert_eq by exact Hne;
      repeat split.
Qed.

(** X15. Two training calls in mode "ema", the state of the first given to the
    second, from a state whose flag is true: the first writes the batch
    statistics, the second the weighted combination of its own batch
    statistics with those of the first. *)
Lemma ema_two_calls self x1 x2 state
    (first_time_index state_index : StateIndex V)
    (old_mean old_var mean1 var1 mean2 var2 out1 out2 : V) :
  String.eqb (mode self) "ema" = true ->
  inference self = false ->
  ema_first_time_index self = Some first_time_index ->
  ema_state_index self = Some state_index ->
  marker first_time_index <> marker state_index ->
  state !! marker first_time_index = Some (SArr (jnp_array_bool true)) ->
  state !! marker state_index = Some (STuple [SArr old_mean; SArr old_var]) ->
  jax_vmap1 (_stats self) x1 = Ok (mean1, var1) ->
  jax_vmap1 (_stats self) x2 = Ok (mean2, var2) ->
  let momentum := momentum self in
  let weighted_mean := (py_int 1 -. momentum) *. mean2 +. momentum *. mean1 in
  let weighted_var := (py_int 1 -. momentum) *. var2 +. momentum *. var1 in
  jax_vmap5 (_norm self) x1 mean1 var1 (weight self) (bias self) = Ok out1 ->
  jax_vmap5 (_norm self) x2 weighted_mean weighted_var (weight self) (bias self)
    = Ok out2 ->
  exists state1 state2,
    __call__ self x1 state None = Ok (out1, state1) /\
    __call__ self x2 state1 None = Ok (out2, state2) /\
    running_statistics self state1 = Ok (mean1, var1) /\
    running_statistics self state2 = Ok (weighted_mean, weighted_var).
Proof.
  intros Hmode Hinf Hfi Hsi Hne Hflag Hstats Hb1 Hb2.
  intros momentum weighted_mean weighted_var Hn1 Hn2.
  pose proof (call_ema_training self x1 state None first_time_index state_index
                _ _ _ _ _ Hmode Hinf Hfi Hsi Hne Hflag Hstats Hb1) as Hcall1.
  cbv zeta in Hcall1. rewrite !lax_select_true, Hn1 in Hcall1.
  cbn [mbind result_bind mret result_ret] in Hcall1.
  eexists _, _. split; [exact Hcall1 |].
  assert (Hflag1 :
    set (set state first_time_index (SArr (jnp_array_bool false))) state_index
      (STuple [SArr mean1; SArr var1]) !! marker first_time_index
    = Some (SArr (jnp_array_bool false))).
  { unfold set. rewrite lookup_insert_ne by congruence. apply lookup_insert_eq. }
  assert (Hstats1 :
    set (set state first_time_index (SArr (jnp_array_bool false))) state_index
      (STuple [SArr mean1; SArr var1]) !! marker state_index
    = Some (STuple [SArr mean1; SArr var1])).
  { unfold set. apply lookup_insert_eq. }
  pose proof (call_ema_training self x2 _ None first_time_index state_index
                _ _ _ _ _ Hmode Hinf Hfi Hsi Hne Hflag1 Hstats1 Hb2) as Hcall2.
  cbv zeta in Hcall2. rewrite !lax_select_false in Hcall2.
  fold momentum weighted_mean weighted_var in Hcall2. rewrite Hn2 in Hcall2.
  cbn [mbind result_bind mret result_ret] in Hcall2.
  split; [exact Hcall2 |].
  unfold running_statistics. rewrite Hmode, Hsi.
  rewrite !get_set_eq. split; reflexivity.
Qed.

(** C7. In mode "batch" with inference resolved to false, a call on a state
    with the counter and the hidden and running statistics returns a state
    whose counter is [counter + 1], whose hidden statistics are
    [hidden * decay + batch * (1 - decay)] with [decay] the momentum, and
    whose running statistics are the new hidden ones divided by
    [1 - decay ** new_counter] and nothing else; every other slot is as it
    was; and the output is the normalisation with the batch mean and
    variance. *)
Theorem batch_mode_update self x state (inference_ : option bool)
    (counter_index state_index : StateIndex V)
    (counter hidden_mean hidden_var running_mean running_var : V)
    (batch_mean batch_var out : V) :
  mode self = "batch" ->
  resolve_inference self inference_ = false ->
  batch_counter self = Some counter_index ->
  batch_state_index self = Some state_index ->
  marker counter_index <> marker state_index ->
  state !! marker counter_index = Some (SArr counter) ->
  state !! marker state_index
    = Some (STuple [STuple [SArr hidden_mean; SArr hidden_var];
                    STuple [SArr running_mean; SArr running_var]]) ->
  jax_vmap1 (_stats self) x = Ok (batch_mean, batch_var) ->
  jax_vmap5 (_norm self) x batch_mean batch_var (weight self) (bias self)
    = Ok out ->
  let decay := momentum self in
  let one := jnp_array 1 (x_dtype x) in
  let new_counter := counter +. py_int 1 in
  let new_hidden_mean := hidden_mean *. decay +. batch_mean *. (one -. decay) in
  let new_hidden_var := hidden_var *. decay +. batch_var *. (one -. decay) in
  exists state',
    __call__ self x state inference_ = Ok (out, state') /\
    state' !! marker counter_index = Some (SArr new_counter) /\
    state' !! marker state_index
      = Some (STuple
                [STuple [SArr new_hidden_mean; SArr new_hidden_var];
                 STuple [SArr (new_hidden_mean /. (one -. decay **. new_counter));
                         SArr (new_hidden_var /. (one -. decay **. new_counter))]]) /\
    forall k, k <> marker counter_index -> k <> marker state_index ->
      state' !! k = state !! k.
Proof.
  intros Hmode Hinf Hci Hsi Hne Hcounter Hstats Hbatch Hnorm.
  intros decay one new_counter new_hidden_mean new_hidden_var.
  eexists. split.
  - rewrite (call_batch_training self x state inference_ counter_index
               state_index counter hidden_mean hidden_var running_mean
               running_var batch_mean batch_var);
      [| rewrite Hmode; reflexivity | assumption ..].
    rewrite Hnorm. reflexivity.
  - unfold set. split; [| split].
    + rewrite lookup_insert_ne by congruence. apply lookup_insert_eq.
    + apply lookup_insert_eq.
    + intros k Hk1 Hk2. rewrite !lookup_insert_ne by congruence. reflexivity.
Qed.

(** C8. A training call, in either mode, reads the state it is given and
    returns an updated state as its second component.  On a state without
    the slots of the layer it raises.  It returns [(out, state')] exactly
    when the two slots hold values of the shape of the mode, the batch
    statistics are computed, and the normalisation with the statistics of
    the mode returns [out]; and then [state'] is the given state with the
    two slots set, one after the other, to the values computed from what
    was read: in mode "ema" the flag [False] and the statistics selected by
    the flag that was read, in the other mode the counter that was read
    plus one and the hidden and running statistics computed from the
    hidden statistics that were read.  Every other slot of [state'] is as
    in the given state. *)
Theorem training_threads_state self x state (inference_ : option bool) a b :
  resolve_inference self inference_ = false ->
  indices self = Some (a, b) ->
  (state_ready self state = false ->
   is_ok (__call__ self x state inference_) = false) /\
  (forall out state',
     __call__ self x state inference_ = Ok (out, state') <->
     exists first batch_mean batch_var,
       state !! marker a = Some (SArr first) /\
       jax_vmap1 (_stats self) x = Ok (batch_mean, batch_var) /\
       if String.eqb (mode self) "ema" then
         exists running_mean running_var,
           state !! marker b
           = Some (STuple [SArr running_mean; SArr running_var]) /\
           let momentum := momentum self in
           let new_mean :=
             lax_select first batch_mean
               ((py_int 1 -. momentum) *. batch_mean +. momentum *. running_mean) in
           let new_var :=
             lax_select first batch_var
               ((py_int 1 -. momentum) *. batch_var +. momentum *. running_var) in
           jax_vmap5 (_norm self) x new_mean new_var (weight self) (bias self)
           = Ok out /\
           state'
           = set (set state a (SArr (jnp_array_bool false))) b
               (STuple [SArr new_mean; SArr new_var])
       else
         exists hidden_mean hidden_var running_mean running_var,
           state !! marker b
           = Some (STuple [STuple [SArr hidden_mean; SArr hidden_var];
                           STuple [SArr running_mean; SArr running_var]]) /\
           let decay := momentum self in
           let one := jnp_array 1 (x_dtype x) in
           let new_counter := first +. py_int 1 in
           let new_hidden_mean :=
             hidden_mean *. decay +. batch_mean *. (one -. decay) in
           let new_hidden_var :=
             hidden_var *. decay +. batch_var *. (one -. decay) in
           jax_vmap5 (_norm self) x batch_mean batch_var (weight self)
             (bias self) = Ok out /\
           state'
           = set (set state a (SArr new_counter)) b
               (STuple
                  [STuple [SArr new_hidden_mean; SArr new_hidden_var];
                   STuple
                     [SArr (new_hidden_mean /. (one -. decay **. new_counter));
                      SArr (new_hidden_var /. (one -. decay **. new_counter))]])) /\
  (forall out state',
     __call__ self x state inference_ = Ok (out, state') ->
     marker a <> marker b /\
     forall k, k <> marker a -> k <> marker b -> state' !! k = state !! k).
Proof.
  intros Hinf Hidx.
  (* the indices of the mode *)
  assert (Hfields :
    if String.eqb (mode self) "ema"
    then ema_first_time_index self = Some a /\ ema_state_index self = Some b
    else batch_counter self = Some a /\ batch_state_index self = Some b).
  { unfold indices in Hidx. destruct (String.eqb (mode self) "ema").
    - destruct (ema_first_time_index self); [| discriminate].
      destruct (ema_state_index self); [| discriminate].
      injection Hidx as -> ->. auto.
    - destruct (batch_counter self); [| discriminate].
      destruct (batch_state_index self); [| discriminate].
      injection Hidx as -> ->. auto. }
  (* a call that returns, spelled out *)
  assert (Hreturns : forall out state',
    __call__ self x state inference_ = Ok (out, state') ->
    marker a <> marker b /\
    exists first batch_mean batch_var,
      state !! marker a = Some (SArr first) /\
      jax_vmap1 (_stats self) x = Ok (batch_mean, batch_var) /\
      if String.eqb (mode self) "ema" then
        exists running_mean running_var,
          state !! marker b
          = Some (STuple [SArr running_mean; SArr running_var]) /\
          jax_vmap5 (_norm self) x
            (lax_select first batch_mean
               ((py_int 1 -. momentum self) *. batch_mean +.
                momentum self *. running_mean))
            (lax_select first batch_var
               ((py_int 1 -. momentum self) *. batch_var +.
                momentum self *. running_var))
            (weight self) (bias self) = Ok out /\
          state'
          = set (set state a (SArr (jnp_array_bool false))) b
              (STuple
                 [SArr (lax_select first batch_mean
                          ((py_int 1 -. momentum self) *. batch_mean +.
                           momentum self *. running_mean));
                  SArr (lax_select first batch_var
                          ((py_int 1 -. momentum self) *. batch_var +.
                           momentum self *. running_var))])
      else
        exists hidden_mean hidden_var running_mean running_var,
          state !! marker b
          = Some (STuple [STuple [SArr hidden_mean; SArr hidden_var];
                          STuple [SArr running_mean; SArr running_var]]) /\
          jax_vmap5 (_norm self) x batch_mean batch_var (weight self)
            (bias self) = Ok out /\
          state'
          = set (set state a (SArr (first +. py_int 1))) b
              (STuple
                 [STuple
                    [SArr (hidden_mean *. momentum self +.
                           batch_mean *. (jnp_array 1 (x_dtype x) -. momentum self));
                     SArr (hidden_var *. momentum self +.
                           batch_var *. (jnp_array 1 (x_dtype x) -. momentum self))];
                  STuple
                    [SArr ((hidden_mean *. momentum self +.
                            batch_mean *. (jnp_array 1 (x_dtype x) -. momentum self))
                           /. (jnp_array 1 (x_dtype x) -.
                               momentum self **. (first +. py_int 1)));
                     SArr ((hidden_var *. momentum self +.
                            batch_var *. (jnp_array 1 (x_dtype x) -. momentum self))
                           /. (jnp_array 1 (x_dtype x) -.
                               momentum self **. (first +. py_int 1)))]])).
  { intros out state' Hcall.
    assert (Hok : is_ok (__call__ self x state inference_) = true)
      by (rewrite Hcall; reflexivity).
    apply training_returns_ready in Hok as (Hready & Hbatch & _); [| exact Hinf].
    apply is_ok_Ok in Hbatch as [[bm bv] Hbatch].
    destruct (state_ready_slots self state a b Hidx Hready)
      as (Hne & c & Ha & Hb).
    split; [exact Hne |]. exists c, bm, bv.
    split; [exact Ha |]. split; [exact Hbatch |].
    destruct (String.eqb (mode self) "ema") eqn:Hmode.
    - destruct Hfields as [Hfi Hsi]. destruct Hb as (rm & rv & Hb).
      exists rm, rv. split; [exact Hb |].
      pose proof (call_ema_training self x state inference_ a b c rm rv bm bv
                    Hmode Hinf Hfi Hsi Hne Ha Hb Hbatch) as Heq.
      cbv zeta in Heq. rewrite Heq in Hcall.
      destruct (jax_vmap5 _ _ _ _ _ _) as [out' |]; [| discriminate Hcall].
      injection Hcall as <- <-. split; reflexivity.
    - destruct Hfields as [Hci Hsi]. destruct Hb as (hm & hv & rm & rv & Hb).
      exists hm, hv, rm, rv. split; [exact Hb |].
      pose proof (call_batch_training self x state inference_ a b c hm hv rm rv
                    bm bv Hmode Hinf Hci Hsi Ha Hb Hbatch) as Heq.
      cbv zeta in Heq. rewrite Heq in Hcall.
      destruct (jax_vmap5 _ _ _ _ _ _) as [out' |]; [| discriminate Hcall].
      injection Hcall as <- <-. split; reflexivity. }
  split; [| split].
  - intros Hnot.
    destruct (is_ok (__call__ self x state inference_)) eqn:Hok; [| reflexivity].
    apply training_returns_ready in Hok as (Hready & _); [| exact Hinf].
    congruence.
  - intros out state'. split.
    + intros Hcall. destruct (Hreturns out state' Hcall) as (_ & Hspelled).
      exact Hspelled.
    + intros (c & bm & bv & Ha & Hbatch & Hmodal).
      destruct (String.eqb (mode self) "ema") eqn:Hmode.
      * destruct Hfields as [Hfi Hsi].
        destruct Hmodal as (rm & rv & Hb & Hnorm & ->).
        assert (Hne : marker a <> marker b) by (intros E; congruence).
        rewrite (call_ema_training self x state inference_ a b c rm rv bm bv
                   Hmode Hinf Hfi Hsi Hne Ha Hb Hbatch).
        cbv zeta in Hnorm. rewrite Hnorm. reflexivity.
      * destruct Hfields as [Hci Hsi].
        destruct Hmodal as (hm & hv & rm & rv & Hb & Hnorm & ->).
        rewrite (call_batch_training self x state inference_ a b c hm hv rm rv
                   bm bv Hmode Hinf Hci Hsi Ha Hb Hbatch).
        rewrite Hnorm. reflexivity.
  - intros out state' Hcall.
    destruct (Hreturns out state' Hcall)
      as (Hne & c & bm & bv & Ha & _ & Hmodal).
    split; [exact Hne |].
    destruct (String.eqb (mode self) "ema").
    + destruct Hmodal as (rm & rv & _ & _ & ->).
      intros k Hk1 Hk2. unfold set. rewrite !lookup_insert_ne by congruence.
      reflexivity.
    + destruct Hmodal as (hm & hv & rm & rv & _ & _ & ->).
      intros k Hk1 Hk2. unfold set. rewrite !lookup_insert_ne by congruence.
      reflexivity.
Qed.

(** C9. When inference resolves to true, by the argument of the call or by
    the field of the layer, in either mode, a call that returns returns the
    very state it was given; and it does return, with the normalisation by
    the stored statistics, when the state has them. *)
Theorem inference_keeps_state self x state (inference_ : option bool) :
  inference_ = Some true \/ (inference_ = None /\ inference self = true) ->
  (forall out state',
     __call__ self x state inference_ = Ok (out, state') -> state' = state) /\
  (forall a b m v out,
     indices self = Some (a, b) ->
     running_statistics self state = Ok (m, v) ->
     jax_vmap5 (_norm self) x m v (weight self) (bias self) = Ok out ->
     __call__ self x state inference_ = Ok (out, state)).
Proof.
  intros Hinf.
  assert (Hres : resolve_inference self inference_ = true).
  { destruct Hinf as [-> | [-> Hfield]]; [reflexivity | exact Hfield]. }
  unfold __call__, indices, running_statistics. rewrite Hres.
  destruct (String.eqb (mode self) "ema").
  - unfold call_ema. split.
    + intros out state'.
      destruct (ema_first_time_index self); [| discriminate].
      destruct (ema_state_index self) as [i |]; [| discriminate].
      destruct (get state i ≫= unpack_pair) as [[m v] |]; [| discriminate].
      cbn [mbind result_bind mret result_ret].
      destruct (jax_vmap5 _ _ _ _ _ _); [| discriminate].
      intros [= _ <-]. reflexivity.
    + intros a b m v out Hidx.
      destruct (ema_first_time_index self); [| discriminate].
      destruct (ema_state_index self) as [i |]; [| discriminate].
      intros -> Hnorm. cbn [mbind result_bind mret result_ret].
      rewrite Hnorm. reflexivity.
  - unfold call_batch. split.
    + intros out state'.
      destruct (batch_state_index self) as [i |]; [| discriminate].
      destruct (batch_counter self); [| discriminate].
      destruct (get state i ≫= unpack2) as [[hidden avg] |]; [| discriminate].
      cbn [mbind result_bind mret result_ret].
      destruct (unpack_pair avg) as [[m v] |]; [| discriminate].
      cbn [mbind result_bind mret result_ret].
      destruct (jax_vmap5 _ _ _ _ _ _); [| discriminate].
      intros [= _ <-]. reflexivity.
    + intros a b m v out Hidx.
      destruct (batch_counter self); [| discriminate].
      destruct (batch_state_index self) as [i |]; [| discriminate].
      destruct (get state i ≫= unpack2) as [[hidden avg] |]; [| discriminate].
      cbn [mbind result_bind mret result_ret].
      intros -> Hnorm. cbn [mbind result_bind mret result_ret].
      rewrite Hnorm. reflexivity.
Qed.

(** C10. In mode "ema" with inference resolved to false, a call writes the
    flag [False] and the statistics chosen by the stored flag: with the
    flag true they are the batch mean and variance, whatever the momentum;
    with the flag false they are
    [(1 - momentum) * batch + momentum * running].  Every other slot is as
    it was, and the output is the normalisation with the statistics
    written. *)
Theorem ema_mode_update self x state (inference_ : option bool)
    (first_time_index state_index : StateIndex V)
    (first_time running_mean running_var batch_mean batch_var out : V) :
  mode self = "ema" ->
  resolve_inference self inference_ = false ->
  ema_first_time_index self = Some first_time_index ->
  ema_state_index self = Some state_index ->
  marker first_time_index <> marker state_index ->
  state !! marker first_time_index = Some (SArr first_time) ->
  state !! marker state_index
    = Some (STuple [SArr running_mean; SArr running_var]) ->
  jax_vmap1 (_stats self) x = Ok (batch_mean, batch_var) ->
  let momentum := momentum self in
  let weighted_mean :=
    (py_int 1 -. momentum) *. batch_mean +. momentum *. running_mean in
  let weighted_var :=
    (py_int 1 -. momentum) *. batch_var +. momentum *. running_var in
  let new_mean := lax_select first_time batch_mean weighted_mean in
  let new_var := lax_select first_time batch_var weighted_var in
  jax_vmap5 (_norm self) x new_mean new_var (weight self) (bias self)
    = Ok out ->
  exists state',
    __call__ self x state inference_ = Ok (out, state') /\
    state' !! marker first_time_index = Some (SArr (jnp_array_bool false)) /\
    state' !! marker state_index = Some (STuple [SArr new_mean; SArr new_var]) /\
    (first_time = jnp_array_bool true ->
     state' !! marker state_index
     = Some (STuple [SArr batch_mean; SArr batch_var])) /\
    (first_time = jnp_array_bool false ->
     state' !! marker state_index
     = Some (STuple [SArr weighted_mean; SArr weighted_var])) /\
    forall k, k <> marker first_time_index -> k <> marker state_index ->
      state' !! k = state !! k.
Proof.
  intros Hmode Hinf Hfi Hsi Hne Hflag Hstats Hbatch.
  intros momentum weighted_mean weighted_var new_mean new_var Hnorm.
  eexists. split.
  - rewrite (call_ema_training self x state inference_ first_time_index
               state_index first_time running_mean running_var batch_mean
               batch_var);
      [| rewrite Hmode; reflexivity | assumption ..].
    fold momentum weighted_mean weighted_var new_mean new_var. rewrite Hnorm.
    reflexivity.
  - unfold set. rewrite lookup_insert_eq.
    split; [rewrite lookup_insert_ne by congruence; apply lookup_insert_eq |].
    split; [reflexivity |].
    split; [| split].
    + intros ->. unfold new_mean, new_var. rewrite !lax_select_true. reflexivity.
    + intros ->. unfold new_mean, new_var. rewrite !lax_select_false. reflexivity.
    + intros k Hk1 Hk2. rewrite !lookup_insert_ne by congruence. reflexivity.
Qed.

End Facts.

(** *** The theorems on the two example layers, with symbolic numbers *)

Lemma batch_mode_update_witness :
  let layer := example_layer "batch" in
  let decay := TFloat (99 # 100) in
  let one := TArray 1 "float32" in
  let new_counter := TAdd (TIntArray 0) (TInt 1) in
  exists out state' batch_mean batch_var,
    jax_vmap1 (_stats layer) (TInput "x") = Ok (batch_mean, batch_var) /\
    __call__ layer (TInput "x") (initial_state layer) None = Ok (out, state') /\
    state' !! 1%positive = Some (SArr new_counter) /\
    running_statistics layer state'
    = Ok (TDiv (TAdd (TMul (TFull 0 3 "float32") decay)
                  (TMul batch_mean (TSub one decay)))
            (TSub one (TPow decay new_counter)),
          TDiv (TAdd (TMul (TFull 1 3 "float32") decay)
                  (TMul batch_var (TSub one decay)))
            (TSub one (TPow decay new_counter))).
Proof.
  intros layer decay one new_counter.
  edestruct (batch_mode_update layer (TInput "x") (initial_state layer) None)
    as (state' & Hcall & Hcounter & Hstats & _);
    [reflexivity | reflexivity | reflexivity | reflexivity | cbn; lia
    | reflexivity | reflexivity | reflexivity | reflexivity |].
  eexists _, state', _, _. split; [reflexivity |].
  split; [exact Hcall |]. split; [exact Hcounter |].
  unfold running_statistics, get. cbn [mode layer example_layer].
  cbn in Hstats |- * . rewrite Hstats. reflexivity.
Defined.

Lemma training_threads_state_witness :
  let ema := example_layer "ema" in
  let batch := example_layer "batch" in
  let flag := mkStateIndex 1%positive (SArr (TBool true)) in
  let buffers :=
    mkStateIndex 2%positive
      (STuple [SArr (TEmpty 3 "float32"); SArr (TEmpty 3 "float32")]) in
  (exists out batch_mean batch_var,
     jax_vmap1 (_stats ema) (TInput "x") = Ok (batch_mean, batch_var) /\
     __call__ ema (TInput "x") (initial_state ema) None
     = Ok (out,
           set (set (initial_state ema) flag (SArr (TBool false))) buffers
             (STuple [SArr batch_mean; SArr batch_var]))) /\
  (exists out state',
     __call__ batch (TInput "x") (initial_state batch) None = Ok (out, state') /\
     state' !! 1%positive = Some (SArr (TAdd (TIntArray 0) (TInt 1))) /\
     state' <> initial_state batch /\
     state' !! 3%positive = None) /\
  is_ok (__call__ ema (TInput "x") ∅ None) = false.
Proof.
  intros ema batch flag buffers. split; [| split].
  - destruct (training_threads_state ema (TInput "x") (initial_state ema) None
                flag buffers eq_refl eq_refl) as (_ & Hiff & _).
    eexists _, _, _. split; [reflexivity |].
    apply Hiff. eexists _, _, _. split; [reflexivity |].
    split; [reflexivity |].
    eexists _, _. split; [reflexivity |]. split; reflexivity.
  - destruct (training_threads_state batch (TInput "x") (initial_state batch)
                None (mkStateIndex 1%positive (SArr (TIntArray 0)))
                (mkStateIndex 2%positive
                   (STuple
                      [STuple [SArr (TFull 0 3 "float32");
                               SArr (TFull 1 3 "float32")];
                       STuple [SArr (TFull 0 3 "float32");
                               SArr (TFull 1 3 "float32")]]))
                eq_refl eq_refl) as (_ & Hiff & Hframe).
    eexists _, _. split.
    + apply Hiff. eexists _, _, _. split; [reflexivity |].
      split; [reflexivity |].
      eexists _, _, _, _. split; [reflexivity |]. split; reflexivity.
    + split; [reflexivity |]. split.
      * intros E. apply (f_equal (fun m => m !! 1%positive)) in E.
        discriminate E.
      * reflexivity.
  - apply (training_threads_state ema (TInput "x") ∅ None flag buffers
             eq_refl eq_refl).
    reflexivity.
Defined.

Lemma inference_keeps_state_witness :
  let batch := example_layer "batch" in
  let ema := example_layer "ema" in
  (exists out,
     __call__ batch (TInput "x") (initial_state batch) (Some true)
     = Ok (out, initial_state batch)) /\
  (exists out,
     __call__ ema (TInput "x") (initial_state ema) (Some true)
     = Ok (out, initial_state ema)).
Proof.
  intros batch ema. split; eexists.
  - eapply (proj2 (inference_keeps_state batch (TInput "x") (initial_state batch)
                     (Some true) (or_introl eq_refl)));
      reflexivity.
  - eapply (proj2 (inference_keeps_state ema (TInput "x") (initial_state ema)
                     (Some true) (or_introl eq_refl)));
      reflexivity.
Defined.

Lemma ema_mode_update_witness :
  let layer := example_layer "ema" in
  exists out state' batch_mean batch_var,
    jax_vmap1 (_stats layer) (TInput "x") = Ok (batch_mean, batch_var) /\
    __call__ layer (TInput "x") (initial_state layer) None = Ok (out, state') /\
    state' !! 1%positive = Some (SArr (TBool false)) /\
    state' !! 2%positive = Some (STuple [SArr batch_mean; SArr batch_var]).
Proof.
  intros layer.
  edestruct (ema_mode_update layer (TInput "x") (initial_state layer) None)
    as (state' & Hcall & Hflag & _ & Hfirst & _);
    [reflexivity | reflexivity | reflexivity | reflexivity | cbn; lia
    | reflexivity | reflexivity | reflexivity | reflexivity |].
  eexists _, state', _, _. split; [reflexivity |].
  split; [exact Hcall |]. split; [exact Hflag |].
  apply Hfirst. reflexivity.
Defined.

End BatchNormSpec.

(** * Further properties of the filtering shard-map wrapper *)

Module ShardMapExtra.
Import ShardMap ShardMapSpec.

(** The second half of [partition ... is_array] has no array leaf. *)
Lemma partition_static_arrays (t : PyTree) :
  array_leaves (partition t is_array).2 = [].
Proof.
  induction t as [a | o | | k cs IH] using PyTree_nested_ind; simpl; try reflexivity.
  induction IH as [| c cs Hc _ IHcs]; simpl.
  - reflexivity.
  - rewrite Hc. simpl. apply IHcs.
Qed.

(** A tree of the shape of a leaf or of [None] is of the same kind. *)
Lemma tree_shape_inv (d t : PyTree) :
  tree_shape d = tree_shape t ->
  match t with
  | Arr _ => exists a, d = Arr a
  | Obj o => d = Obj o
  | PyNone => d = PyNone
  | Node k cs => exists ds, d = Node k ds /\ map tree_shape ds = map tree_shape cs
  end.
Proof.
  destruct t as [a | o | | k cs], d as [a' | o' | | k' ds]; simpl;
    intros E; try discriminate E.
  - eauto.
  - injection E as ->. reflexivity.
  - reflexivity.
  - injection E as -> E. eauto.
Qed.

(** [combine] takes any tree of the shape of the first half: the arrays
    may have changed, the shape and the non-array leaves of the result are
    those of the tree that was split. *)
Lemma combine_same_shape (t d : PyTree) :
  tree_shape d = tree_shape (partition t is_array).1 ->
  exists r,
    combine d (partition t is_array).2 = Ok r /\
    tree_shape r = tree_shape t /\
    static_leaves r = static_leaves t.
Proof.
  revert d.
  induction t as [a | o | | k cs IH] using PyTree_nested_ind; intros d Hd.
  - apply (tree_shape_inv d (Arr a)) in Hd as [a' ->]. exists (Arr a'). auto.
  - apply (tree_shape_inv d PyNone) in Hd as ->. exists (Obj o). auto.
  - apply (tree_shape_inv d PyNone) in Hd as ->. exists PyNone. auto.
  - cbn [partition fst snd] in Hd |- * .
    apply (tree_shape_inv d (Node k _)) in Hd as (ds & -> & Hds).
    cbn [combine]. rewrite decide_True by reflexivity.
    enough (exists rs,
      (fix children (xs ys : list PyTree) {struct xs} :=
         match xs, ys with
         | [], [] => Ok []
         | x :: xs', y :: ys' =>
             z ← combine x y; zs ← children xs' ys'; mret (z :: zs)
         | _, _ => Raise structure_error
         end) ds (map snd (map (fun c => partition c is_array) cs)) = Ok rs /\
      map tree_shape rs = map tree_shape cs /\
      flat_map static_leaves rs = flat_map static_leaves cs)
      as (rs & -> & Hshape & Hleaves).
    { exists (Node k rs). cbn. rewrite Hshape, Hleaves. auto. }
    clear k. revert ds Hds.
    induction IH as [| c cs Hc _ IHcs]; intros [| x ds] Hds;
      try discriminate Hds.
    + exists []. auto.
    + cbn [map] in Hds. injection Hds as Hx Hds.
      destruct (Hc x Hx) as (r & Hr & Hrs & Hrl).
      destruct (IHcs ds Hds) as (rs & Hrs' & Hshape & Hleaves).
      exists (r :: rs). cbn [map flat_map]. rewrite Hr. cbn [mbind result_bind].
      rewrite Hrs'. cbn. rewrite Hrs, Hrl, Hshape, Hleaves. auto.
Qed.

(** The request of a call without keyword arguments, with the tree
    collaborators as modelled. *)
Lemma invoke_request (self : _ShardMapWrapper) (args : list PyTree)
    (c : shard_map_call) (k : result (PyTree * Static) -> result PyTree) :
  invoke self args [] = Dispatch c k ->
  operands c = [(partition (Tuple args) is_array).1] /\
  (forall x,
     f c x
     = (_args ← combine x (partition (Tuple args) is_array).2;
        _out ← _fun self _args;
        mret ((partition _out is_array).1,
              MkStatic (partition _out is_array).2))) /\
  forall r,
    k r = ('(dynamic_out, static_out) ← r;
           combine dynamic_out (value static_out)).
Proof.
  unfold invoke, __call__. cbn [length Nat.eqb negb].
  destruct (partition (Tuple args) is_array) as [d s].
  intros [= <- <-]. cbn [operands f fst snd]. split; [reflexivity |].
  split; [| reflexivity].
  intros x. unfold _fun_wrapper.
  destruct (combine x s) as [a |]; [| reflexivity]. cbn [mbind result_bind].
  destruct (_fun self a) as [o |]; [| reflexivity]. cbn [mbind result_bind].
  destruct (partition o is_array). reflexivity.
Qed.

(** X1. The static payload survives whatever the primitive does to arrays.
    When the primitive runs the mapped function on an operand of the shape
    of the dynamic arguments and returns a dynamic output of the shape of
    what the mapped function returned, with the [Static] it returned, the
    wrapped function was called on arguments of the shape of the arguments
    of the call with the same non-array leaves, and the call returns a tree
    of the shape of the output of the wrapped function with the same
    non-array leaves. *)
Theorem static_payload_survives (self : _ShardMapWrapper)
    (args : list PyTree)
    (shard_map : shard_map_call -> result (PyTree * Static))
    (c : shard_map_call) (k : result (PyTree * Static) -> result PyTree)
    (x d0 d : PyTree) (s0 : Static) :
  invoke self args [] = Dispatch c k ->
  tree_shape x = tree_shape (partition (Tuple args) is_array).1 ->
  f c x = Ok (d0, s0) ->
  tree_shape d = tree_shape d0 ->
  shard_map c = Ok (d, s0) ->
  exists _args _out res,
    _fun self _args = Ok _out /\
    tree_shape _args = tree_shape (Tuple args) /\
    static_leaves _args = static_leaves (Tuple args) /\
    run shard_map (invoke self args []) = Ok res /\
    tree_shape res = tree_shape _out /\
    static_leaves res = static_leaves _out.
Proof.
  intros Hcall Hx Hf Hd Hsm.
  destruct (invoke_request self args c k Hcall) as (_ & Hfc & Hk).
  destruct (combine_same_shape (Tuple args) x Hx) as (a & Ha & Hshape & Hleaves).
  rewrite Hfc, Ha in Hf. cbn [mbind result_bind] in Hf.
  destruct (_fun self a) as [o |] eqn:Ho; [| discriminate Hf].
  cbn [mbind result_bind mret result_ret] in Hf. injection Hf as <- <-.
  destruct (combine_same_shape o d Hd) as (res & Hres & Hrs & Hrl).
  exists a, o, res. rewrite Hcall. cbn [run]. rewrite Hsm, Hk.
  cbn [mbind result_bind value]. auto 10.
Qed.

Lemma static_payload_survives_witness :
  let half (c : shard_map_call) := f c (Tuple [Arr (ones 2)]) in
  exists _args _out res,
    metadata_fun _args = Ok _out /\
    tree_shape _args = tree_shape (Tuple [Arr (ones 4)]) /\
    static_leaves _args = [] /\
    run half (invoke metadata_wrapper [Arr (ones 4)] []) = Ok res /\
    tree_shape res = tree_shape _out /\
    static_leaves res = static_leaves _out.
Proof.
  intros half.
  eapply (static_payload_survives metadata_wrapper [Arr (ones 4)] half _ _
            (Tuple [Arr (ones 2)]) (Tuple [Arr (add_one (ones 2)); PyNone])
            (Tuple [Arr (add_one (ones 2)); PyNone])
            (MkStatic (Tuple [PyNone; Obj (OStr "metadata")])));
    reflexivity.
Defined.

Lemma call_once_contract_witness :
  run shard_map_once
    (__call__ (fun t _ => Ok (PyNone, t)) combine is_array metadata_wrapper
       [Arr (ones 4)] [])
  = Ok (Tuple [Arr (add_one (ones 4)); Obj (OStr "metadata")]).
Proof.
  apply (call_once_contract (fun t _ => Ok (PyNone, t)) combine is_array
           metadata_wrapper [Arr (ones 4)] PyNone (Tuple [Arr (ones 4)])
           (Tuple [Arr (add_one (ones 4)); Obj (OStr "metadata")]) PyNone
           (Tuple [Arr (add_one (ones 4)); Obj (OStr "metadata")]));
    reflexivity.
Defined.

(** The first half of [partition ... is_array] has every array leaf. *)
Lemma partition_dynamic_arrays (t : PyTree) :
  array_leaves (partition t is_array).1 = array_leaves t.
Proof.
  induction t as [a | o | | k cs IH] using PyTree_nested_ind; simpl; try reflexivity.
  induction IH as [| c cs Hc _ IHcs]; simpl.
  - reflexivity.
  - rewrite Hc. f_equal. apply IHcs.
Qed.

(** X2. What the mapped function returns to the primitive is split cleanly,
    whatever operand the primitive gave it: the dynamic output has all the
    arrays of the output of the wrapped function and no other leaf, the
    [Static] has all its other leaves and no array, and the continuation of
    the call puts exactly that output together again. *)
Theorem mapped_output_split (self : _ShardMapWrapper) (args : list PyTree)
    (c : shard_map_call) (k : result (PyTree * Static) -> result PyTree)
    (x d : PyTree) (s : Static) :
  invoke self args [] = Dispatch c k ->
  f c x = Ok (d, s) ->
  exists _args _out,
    combine x (partition (Tuple args) is_array).2 = Ok _args /\
    _fun self _args = Ok _out /\
    static_leaves d = [] /\
    array_leaves d = array_leaves _out /\
    array_leaves (value s) = [] /\
    static_leaves (value s) = static_leaves _out /\
    k (Ok (d, s)) = Ok _out.
Proof.
  intros Hcall Hf.
  destruct (invoke_request self args c k Hcall) as (_ & Hfc & Hk).
  rewrite Hfc in Hf.
  destruct (combine x _) as [a |] eqn:Ha; [| discriminate Hf].
  cbn [mbind result_bind] in Hf.
  destruct (_fun self a) as [o |] eqn:Ho; [| discriminate Hf].
  cbn [mbind result_bind mret result_ret] in Hf. injection Hf as <- <-.
  exists a, o. cbn [value]. rewrite Hk. cbn [mbind result_bind value].
  split; [reflexivity |]. split; [exact Ho |].
  split; [apply partition_dynamic_leaves |].
  split; [apply partition_dynamic_arrays |].
  split; [apply partition_static_arrays |].
  split; [apply partition_static_leaves |].
  apply combine_partition.
Qed.

Lemma mapped_output_split_witness :
  exists c k,
    invoke metadata_wrapper [Arr (ones 4)] [] = Dispatch c k /\
    f c (Tuple [Arr (ones 2)])
    = Ok (Tuple [Arr (add_one (ones 2)); PyNone],
          MkStatic (Tuple [PyNone; Obj (OStr "metadata")])) /\
    k (Ok (Tuple [Arr (add_one (ones 2)); PyNone],
           MkStatic (Tuple [PyNone; Obj (OStr "metadata")])))
    = Ok (Tuple [Arr (add_one (ones 2)); Obj (OStr "metadata")]).
Proof.
  eexists _, _. split; [reflexivity |]. split; [reflexivity |].
  destruct (mapped_output_split metadata_wrapper [Arr (ones 4)] _ _
              (Tuple [Arr (ones 2)])
              (Tuple [Arr (add_one (ones 2)); PyNone])
              (MkStatic (Tuple [PyNone; Obj (OStr "metadata")]))
              eq_refl eq_refl)
    as (a & o & Ha & Ho & _ & _ & _ & _ & Hk).
  injection Ha as <-. injection Ho as <-. exact Hk.
Defined.

(** X3. Keyword arguments are rejected through a bound callable as well: the
    callable that access through an instance returns passes the keyword
    arguments of its call on to the wrapper, which raises the usage error
    whatever the positional arguments; so does the reference that access
    through the class returns. *)
Theorem bound_call_rejects_kwargs (h : gmap loc object) (self : loc)
    (w : _ShardMapWrapper) (instance : PyTree) (n : nat)
    (args : list PyTree) (kwargs : list (string * PyTree)) :
  h !! self = Some (OWrapper w) ->
  kwargs <> [] ->
  call_object (S (S n)) (__get__ h self (Some instance)).1
    (__get__ h self (Some instance)).2 args kwargs
  = Done (Raise kwargs_error) /\
  call_object (S n) (__get__ h self None).1 (__get__ h self None).2 args kwargs
  = Done (Raise kwargs_error).
Proof.
  intros Hself Hne.
  assert (Hinvoke : forall xs, invoke w xs kwargs = Done (Raise kwargs_error)).
  { intros xs. destruct kwargs as [| kw kwargs]; [contradiction |]. reflexivity. }
  split.
  - destruct (get_instance h self w instance Hself) as (_ & _ & _ & Hcall).
    rewrite Hcall. apply Hinvoke.
  - cbn [__get__ fst snd call_object]. rewrite Hself. apply Hinvoke.
Qed.

Lemma bound_call_rejects_kwargs_witness :
  let h : gmap loc object := {[ 1%positive := OWrapper metadata_wrapper ]} in
  call_object 2 (__get__ h 1%positive (Some (Obj (ORef 7)))).1
    (__get__ h 1%positive (Some (Obj (ORef 7)))).2
    [Arr (ones 4)] [("scale", Obj (OInt 2))]
  = Done (Raise kwargs_error).
Proof.
  intros h.
  apply (bound_call_rejects_kwargs h 1%positive metadata_wrapper (Obj (ORef 7))
           0 [Arr (ones 4)] [("scale", Obj (OInt 2))] eq_refl).
  discriminate.
Defined.

End ShardMapExtra.

(** * Further properties of the batch-norm layer *)

Module BatchNormExtra.
Import BatchNorm BatchNormSpec.
Local Open Scope jax_scope.

Section MoreFacts.
Context {V : Type} `{Jax V}.

Implicit Types (self : BatchNorm V) (state : gmap positive (sval V)).
Implicit Types (x : V) (a b : StateIndex V).

(** A call of a layer without the indices of its mode fails its
    assertion. *)
Lemma call_without_indices self x state (inference_ : option bool) :
  indices self = None ->
  __call__ self x state inference_ = Raise assertion_error.
Proof.
  unfold indices, __call__.
  destruct (String.eqb (mode self) "ema").
  - unfold call_ema.
    destruct (ema_first_time_index self), (ema_state_index self);
      intros E; try discriminate E; reflexivity.
  - unfold call_batch.
    destruct (batch_counter self), (batch_state_index self);
      intros E; try discriminate E; reflexivity.
Qed.

(** An inference call is the normalisation with the statistics the state
    keeps, and returns the state it was given. *)
Lemma call_inference self x state (inference_ : option bool) a b :
  resolve_inference self inference_ = true ->
  indices self = Some (a, b) ->
  __call__ self x state inference_
  = ('(m, v) ← running_statistics self state;
     out ← jax_vmap5 (_norm self) x m v (weight self) (bias self);
     mret (out, state)).
Proof.
  intros Hinf. unfold indices, __call__, running_statistics. rewrite Hinf.
  destruct (String.eqb (mode self) "ema").
  - unfold call_ema.
    destruct (ema_first_time_index self); [| discriminate].
    destruct (ema_state_index self) as [i |]; [| discriminate].
    intros _. destruct (get state i ≫= unpack_pair) as [[m v] |]; reflexivity.
  - unfold call_batch.
    destruct (batch_counter self); [| discriminate].
    destruct (batch_state_index self) as [i |]; [| discriminate].
    intros _. destruct (get state i ≫= unpack2) as [[hidden avg] |];
      [| reflexivity].
    cbn [mbind result_bind].
    destruct (unpack_pair avg) as [[m v] |]; reflexivity.
Qed.

(** What a training call on a ready state computes: it sets the first
    slot to an array and the second to a value of the shape it had. *)
Lemma call_training self x state (inference_ : option bool) a b bm bv :
  resolve_inference self inference_ = false ->
  indices self = Some (a, b) ->
  state_ready self state = true ->
  jax_vmap1 (_stats self) x = Ok (bm, bv) ->
  exists m v c vb,
    __call__ self x state inference_
    = (out ← jax_vmap5 (_norm self) x m v (weight self) (bias self);
       mret (out, set (set state a (SArr c)) b vb)) /\
    if String.eqb (mode self) "ema"
    then exists p q, vb = STuple [SArr p; SArr q]
    else exists p q p' q',
           vb = STuple [STuple [SArr p; SArr q]; STuple [SArr p'; SArr q']].
Proof.
  intros Hinf Hidx Hready Hbatch.
  destruct (state_ready_slots self state a b Hidx Hready) as (Hne & c & Ha & Hb).
  unfold indices in Hidx.
  destruct (String.eqb (mode self) "ema") eqn:Hmode.
  - destruct (ema_first_time_index self) as [a' |] eqn:Hfi; [| discriminate].
    destruct (ema_state_index self) as [b' |] eqn:Hsi; [| discriminate].
    injection Hidx as -> ->. destruct Hb as (rm & rv & Hb).
    eexists _, _, _, _. split.
    + apply (call_ema_training self x state inference_ a b c rm rv bm bv);
        assumption.
    + eauto.
  - destruct (batch_counter self) as [a' |] eqn:Hci; [| discriminate].
    destruct (batch_state_index self) as [b' |] eqn:Hsi; [| discriminate].
    injection Hidx as -> ->. destruct Hb as (hm & hv & rm & rv & Hb).
    eexists _, _, _, _. split.
    + apply (call_batch_training self x state inference_ a b c hm hv rm rv bm bv);
        assumption.
    + eauto 6.
Qed.

(** X5. A layer whose indices for its mode are missing raises the
    [AssertionError] on every call, training or inference, whatever the
    input and the state: nothing is read or computed before. *)
Theorem missing_indices_assert self x state (inference_ : option bool) :
  (if String.eqb (mode self) "ema"
   then ema_first_time_index self = None \/ ema_state_index self = None
   else batch_state_index self = None \/ batch_counter self = None) ->
  __call__ self x state inference_ = Raise assertion_error.
Proof.
  intros Hmissing. apply call_without_indices. unfold indices.
  destruct (String.eqb (mode self) "ema").
  - destruct Hmissing as [-> | ->]; [reflexivity |].
    destruct (ema_first_time_index self); reflexivity.
  - destruct Hmissing as [-> | ->].
    + destruct (batch_counter self); reflexivity.
    + reflexivity.
Qed.

(** X6. In inference the output is decided by the statistics the state
    keeps and by nothing else in the state: on two states with the same
    running statistics (or the same failure to read them) a call returns
    the same output or raises the same exception. *)
Theorem inference_reads_statistics_only self x state1 state2
    (inference_ : option bool) :
  resolve_inference self inference_ = true ->
  running_statistics self state1 = running_statistics self state2 ->
  fst <$> __call__ self x state1 inference_
  = fst <$> __call__ self x state2 inference_.
Proof.
  intros Hinf Hstats.
  destruct (indices self) as [[a b] |] eqn:Hidx.
  - rewrite !(call_inference self x _ inference_ a b Hinf Hidx), Hstats.
    destruct (running_statistics self state2) as [[m v] |]; [| reflexivity].
    cbn [mbind result_bind].
    destruct (jax_vmap5 _ _ _ _ _ _); reflexivity.
  - rewrite !call_without_indices by exact Hidx. reflexivity.
Qed.

(** X7. [__init__] accepts the two modes and nothing else: with "ema" or
    "batch" it returns a layer, with any other mode it raises the
    [ValueError]. *)
Theorem init_mode_validation (fresh : positive) (n : nat)
    (axis mode_ : string) (eps_ : V) (affine : bool) (mom : V) (inf : bool)
    (dt : option dtype) :
  (mode_ = "ema" \/ mode_ = "batch" ->
   exists self,
     __init__ fresh n axis mode_ eps_ affine mom inf dt = Ok self /\
     mode self = mode_) /\
  (mode_ <> "ema" -> mode_ <> "batch" ->
   __init__ fresh n axis mode_ eps_ affine mom inf dt
   = Raise (Exn "ValueError" "Invalid mode, must be 'ema' or 'batch'.")).
Proof.
  split.
  - intros [-> | ->]; unfold __init__; cbn [String.eqb Ascii.eqb Bool.eqb orb negb];
      destruct affine; eexists; split; reflexivity.
  - intros Hema Hbatch. unfold __init__.
    apply String.eqb_neq in Hema, Hbatch. rewrite Hema, Hbatch. reflexivity.
Qed.

(** X8. A layer made by [__init__] is well formed: it has the two indices of
    its mode, with different markers; every state that holds the initial
    values of the two is ready for a training call; and its normalisation
    never meets a missing weight or bias, the two being there exactly when
    the layer is affine. *)
Theorem init_well_formed (fresh : positive) (n : nat) (axis mode_ : string)
    (eps_ : V) (affine : bool) (mom : V) (inf : bool) (dt : option dtype)
    self :
  __init__ fresh n axis mode_ eps_ affine mom inf dt = Ok self ->
  (exists a b,
     indices self = Some (a, b) /\ marker a <> marker b /\
     forall state,
       state !! marker a = Some (init a) ->
       state !! marker b = Some (init b) ->
       state_ready self state = true) /\
  (is_Some (weight self) <-> affine = true) /\
  (is_Some (bias self) <-> affine = true) /\
  forall (y m v : V) (w_slice b_slice : option V),
    (is_Some w_slice <-> is_Some (weight self)) ->
    (is_Some b_slice <-> is_Some (bias self)) ->
    is_ok (_norm self y m v w_slice b_slice) = true.
Proof.
  intros Hinit. split.
  - destruct (init_ready _ _ _ _ _ _ _ _ _ _ Hinit)
      as (Hmode & _ & a & b & Hidx & Ha & Hb & Hia & Hib & Hready).
    exists a, b. split; [exact Hidx |]. split; [rewrite Ha, Hb; lia |].
    intros state Hsa Hsb. revert Hready.
    unfold state_ready, get. rewrite Hidx, Hia, Hib, Hsa, Hsb. auto.
  - unfold __init__ in Hinit.
    destruct (negb _); [discriminate Hinit |].
    unfold _norm.
    destruct affine; injection Hinit as <-;
      cbn [weight bias channelwise_affine].
    + split; [split; eauto |]. split; [split; eauto |].
      intros y m v w b [_ Hw] [_ Hb].
      destruct Hw as [w' ->]; [eauto |]. destruct Hb as [b' ->]; [eauto |].
      reflexivity.
    + split; [split; [intros [? E]; discriminate E | discriminate] |].
      split; [split; [intros [? E]; discriminate E | discriminate] |].
      reflexivity.
Qed.

(** X9. Inference before any training.  On a state that holds the initial
    statistics of a layer made by [__init__], an inference call in mode
    "ema" normalises with the two [jnp.empty] buffers, whose content is
    not defined; in mode "batch" it normalises with mean zero and variance
    one. *)
Theorem fresh_inference (fresh : positive) (n : nat) (axis mode_ : string)
    (eps_ : V) (affine : bool) (mom : V) (inf : bool) (dt : option dtype)
    self x state (inference_ : option bool) a b :
  __init__ fresh n axis mode_ eps_ affine mom inf dt = Ok self ->
  indices self = Some (a, b) ->
  state !! marker b = Some (init b) ->
  resolve_inference self inference_ = true ->
  let dtype_ := default default_floating_dtype dt in
  let buffers :=
    if String.eqb mode_ "ema"
    then (jnp_empty n dtype_, jnp_empty n dtype_)
    else (jnp_zeros n dtype_, jnp_ones n dtype_) in
  __call__ self x state inference_
  = (out ← jax_vmap5 (_norm self) x buffers.1 buffers.2 (weight self) (bias self);
     mret (out, state)).
Proof.
  intros Hinit Hidx Hb Hinf dtype_ buffers.
  rewrite (call_inference self x state inference_ a b Hinf Hidx).
  enough (running_statistics self state = Ok buffers) as ->
    by (destruct buffers; reflexivity).
  unfold __init__ in Hinit. unfold running_statistics, indices in * .
  destruct (String.eqb mode_ "ema") eqn:Hmode; cbn [orb negb] in Hinit.
  - destruct affine; injection Hinit as <-;
      cbn [mode ema_first_time_index ema_state_index] in Hidx |- *;
      rewrite Hmode in Hidx |- *; injection Hidx as <- <-;
      unfold get; rewrite Hb; reflexivity.
  - destruct (String.eqb mode_ "batch"); [| discriminate Hinit].
    cbn [negb] in Hinit.
    destruct affine; injection Hinit as <-;
      cbn [mode batch_counter batch_state_index] in Hidx |- *;
      rewrite Hmode in Hidx |- *; injection Hidx as <- <-;
      unfold get; rewrite Hb; reflexivity.
Qed.

(** X10. The first training call in mode "ema".  On a state that holds the
    initial values of a layer made by [__init__] with mode "ema", a
    training call reads the [jnp.empty] buffers and passes them, in the
    weighted combination, to [lax.select], which returns the other branch
    because the stored flag is [True].  So whenever the call returns, it
    has computed the batch statistics, written them and the flag [False],
    and normalised with them: the content of the buffers is not in what it
    returns. *)
Theorem first_training_call (fresh : positive) (n : nat) (axis : string)
    (eps_ : V) (affine : bool) (mom : V) (inf : bool) (dt : option dtype)
    self x state (inference_ : option bool) a b (out : V)
    (state' : gmap positive (sval V)) :
  __init__ fresh n axis "ema" eps_ affine mom inf dt = Ok self ->
  indices self = Some (a, b) ->
  state !! marker a = Some (init a) ->
  state !! marker b = Some (init b) ->
  resolve_inference self inference_ = false ->
  __call__ self x state inference_ = Ok (out, state') ->
  exists batch_mean batch_var,
    jax_vmap1 (_stats self) x = Ok (batch_mean, batch_var) /\
    jax_vmap5 (_norm self) x batch_mean batch_var (weight self) (bias self)
    = Ok out /\
    state'
    = set (set state a (SArr (jnp_array_bool false))) b
        (STuple [SArr batch_mean; SArr batch_var]) /\
    running_statistics self state' = Ok (batch_mean, batch_var).
Proof.
  intros Hinit Hidx Ha Hb Hinf Hcall.
  assert (Hok : is_ok (__call__ self x state inference_) = true)
    by (rewrite Hcall; reflexivity).
  apply training_returns_ready in Hok as (_ & Hbatch & _); [| exact Hinf].
  apply is_ok_Ok in Hbatch as [[batch_mean batch_var] Hbatch].
  exists batch_mean, batch_var. split; [exact Hbatch |].
  destruct (init_ready _ _ _ _ _ _ _ _ _ _ Hinit)
    as (Hmode & _ & a' & b' & Hidx' & Hma & Hmb & _).
  rewrite Hidx in Hidx'. injection Hidx' as <- <-.
  assert (Hne : marker a <> marker b) by (rewrite Hma, Hmb; lia).
  assert (Hema : String.eqb (mode self) "ema" = true)
    by (rewrite Hmode; reflexivity).
  assert (Hsi : ema_state_index self = Some b).
  { unfold indices in Hidx. rewrite Hema in Hidx.
    destruct (ema_first_time_index self); [| discriminate].
    destruct (ema_state_index self); [| discriminate].
    injection Hidx as _ ->. reflexivity. }
  assert (Heq :
    __call__ self x state inference_
    = (out0 ← jax_vmap5 (_norm self) x batch_mean batch_var
                (weight self) (bias self);
       mret (out0,
             set (set state a (SArr (jnp_array_bool false))) b
               (STuple [SArr batch_mean; SArr batch_var])))).
  { clear Hcall Hsi Hema Hmode. unfold __init__ in Hinit.
    cbn [String.eqb Ascii.eqb Bool.eqb orb negb] in Hinit.
    unfold indices in Hidx.
    destruct affine; injection Hinit as <-;
      cbn [mode ema_first_time_index ema_state_index String.eqb Ascii.eqb
           Bool.eqb] in Hidx;
      injection Hidx as <- <-;
      (erewrite call_ema_training;
         [ rewrite !lax_select_true; reflexivity
         | reflexivity | exact Hinf | reflexivity | reflexivity | exact Hne
         | exact Ha | exact Hb | exact Hbatch ]). }
  rewrite Heq in Hcall.
  destruct (jax_vmap5 _ _ _ _ _ _) as [out0 |]; [| discriminate Hcall].
  injection Hcall as <- <-. split; [reflexivity |]. split; [reflexivity |].
  unfold running_statistics. rewrite Hema, Hsi, get_set_eq. reflexivity.
Qed.

(** X11. In mode "ema" a training call and an inference call agree: when a
    training call returns, an inference call on the same input with the
    state it returned returns the same output and that state. *)
Theorem ema_training_then_inference self x state out state' :
  String.eqb (mode self) "ema" = true ->
  __call__ self x state (Some false) = Ok (out, state') ->
  __call__ self x state' (Some true) = Ok (out, state').
Proof.
  intros Hmode Hcall.
  assert (Hok : is_ok (__call__ self x state (Some false)) = true)
    by (rewrite Hcall; reflexivity).
  apply training_returns_ready in Hok as (Hready & Hbatch & a & b & Hidx & Hne);
    [| reflexivity].
  apply is_ok_Ok in Hbatch as [[bm bv] Hbatch].
  destruct (call_training self x state (Some false) a b bm bv eq_refl Hidx
              Hready Hbatch) as (m & v & c & vb & Heq & Hshape).
  rewrite Hmode in Hshape. destruct Hshape as (p & q & ->).
  (* the statistics the call normalised with are the ones it wrote *)
  destruct (state_ready_slots self state a b Hidx Hready)
    as (_ & c0 & Ha & Hb).
  rewrite Hmode in Hb. destruct Hb as (rm & rv & Hb).
  pose proof Hidx as Hidx'. unfold indices in Hidx'. rewrite Hmode in Hidx'.
  destruct (ema_first_time_index self) as [a' |] eqn:Hfi; [| discriminate].
  destruct (ema_state_index self) as [b' |] eqn:Hsi; [| discriminate].
  injection Hidx' as -> ->.
  pose proof (call_ema_training self x state (Some false) a b c0 rm rv bm bv
                Hmode eq_refl Hfi Hsi Hne Ha Hb Hbatch) as Heq'.
  cbv zeta in Heq'. rewrite Heq' in Hcall.
  destruct (jax_vmap5 _ _ _ _ _ _) as [out' |] eqn:Hnorm; [| discriminate].
  injection Hcall as <- <-.
  rewrite (call_inference self x _ (Some true) a b eq_refl Hidx).
  unfold running_statistics. rewrite Hmode, Hsi, get_set_eq.
  cbn [mbind result_bind unpack_pair unpack2 as_array mret result_ret].
  rewrite Hnorm. reflexivity.
Qed.

(** X12. In mode "batch" a training call does not use the running average
    the state keeps: it is read and replaced.  Whatever running average
    the statistics slot holds, the call returns the same output and the
    same state. *)
Theorem batch_training_ignores_average self x state
    (inference_ : option bool) b (hidden : sval V)
    (running_mean running_var other_mean other_var : V) :
  String.eqb (mode self) "ema" = false ->
  resolve_inference self inference_ = false ->
  batch_state_index self = Some b ->
  state !! marker b
    = Some (STuple [hidden; STuple [SArr running_mean; SArr running_var]]) ->
  __call__ self x
    (set state b (STuple [hidden; STuple [SArr other_mean; SArr other_var]]))
    inference_
  = __call__ self x state inference_.
Proof.
  intros Hmode Hinf Hsi Hb. unfold __call__. rewrite Hmode, Hinf.
  unfold call_batch. rewrite Hsi.
  destruct (batch_counter self) as [a |]; [| reflexivity].
  destruct (jax_vmap1 (_stats self) x) as [[bm bv] |]; [| reflexivity].
  cbn [mbind result_bind].
  destruct (decide (marker a = marker b)) as [Heq | Hne].
  - assert (Hnew : forall v, get (set state b v) a = Ok v).
    { intros v. unfold get, set. rewrite Heq, lookup_insert_eq. reflexivity. }
    assert (Hold : get state a
              = Ok (STuple [hidden; STuple [SArr running_mean; SArr running_var]])).
    { unfold get. rewrite Heq, Hb. reflexivity. }
    rewrite Hnew, Hold. reflexivity.
  - rewrite (get_set_ne state b a) by congruence.
    destruct (get state a ≫= as_array) as [c |]; [| reflexivity].
    cbn [mbind result_bind]. rewrite get_set_eq.
    apply get_Ok in Hb. rewrite Hb.
    cbn [mbind result_bind unpack2].
    destruct (unpack_pair hidden) as [[hm hv] |]; [| reflexivity].
    cbn [mbind result_bind unpack_pair unpack2 as_array mret result_ret].
    unfold set.
    rewrite (insert_insert_ne _ (marker a) (marker b)) by exact Hne.
    rewrite insert_insert_eq. reflexivity.
Qed.

(** X13. A training call keeps the state usable.  When it returns, the state
    it returns is ready for the next training call, and it has exactly the
    slots of the state it was given: no slot is added or removed. *)
Theorem training_keeps_ready self x state (inference_ : option bool)
    out state' :
  resolve_inference self inference_ = false ->
  __call__ self x state inference_ = Ok (out, state') ->
  state_ready self state = true /\
  state_ready self state' = true /\
  dom state' = dom state.
Proof.
  intros Hinf Hcall.
  assert (Hok : is_ok (__call__ self x state inference_) = true)
    by (rewrite Hcall; reflexivity).
  apply training_returns_ready in Hok as (Hready & Hbatch & a & b & Hidx & Hne);
    [| exact Hinf].
  apply is_ok_Ok in Hbatch as [[bm bv] Hbatch].
  destruct (call_training self x state inference_ a b bm bv Hinf Hidx Hready
              Hbatch) as (m & v & c & vb & Heq & Hshape).
  rewrite Heq in Hcall.
  destruct (jax_vmap5 _ _ _ _ _ _) as [out' |]; [| discriminate].
  injection Hcall as _ <-.
  destruct (state_ready_slots self state a b Hidx Hready)
    as (_ & c0 & Ha & Hb).
  split; [exact Hready |]. split.
  - unfold state_ready. rewrite Hidx.
    rewrite get_set_ne by congruence. rewrite !get_set_eq.
    destruct (String.eqb (mode self) "ema").
    + destruct Hshape as (p & q & ->). reflexivity.
    + destruct Hshape as (p & q & p' & q' & ->). reflexivity.
  - assert (Hsb : is_Some (state !! marker b)).
    { destruct (String.eqb (mode self) "ema").
      - destruct Hb as (? & ? & ->). eauto.
      - destruct Hb as (? & ? & ? & ? & ->). eauto. }
    unfold set. rewrite dom_insert_lookup_L.
    + apply dom_insert_lookup_L. eauto.
    + rewrite lookup_insert_ne by congruence. exact Hsb.
Qed.

(** X14. In mode "batch", inference after a training call normalises with
    the debiased statistics the training call wrote: the new hidden
    statistics divided by [1 - decay ** (counter + 1)]. *)
Theorem batch_training_then_inference self x x' state
    (counter_index state_index : StateIndex V)
    (counter hidden_mean hidden_var running_mean running_var : V)
    (batch_mean batch_var out : V) :
  String.eqb (mode self) "ema" = false ->
  batch_counter self = Some counter_index ->
  batch_state_index self = Some state_index ->
  state !! marker counter_index = Some (SArr counter) ->
  state !! marker state_index
    = Some (STuple [STuple [SArr hidden_mean; SArr hidden_var];
                    STuple [SArr running_mean; SArr running_var]]) ->
  jax_vmap1 (_stats self) x = Ok (batch_mean, batch_var) ->
  jax_vmap5 (_norm self) x batch_mean batch_var (weight self) (bias self)
    = Ok out ->
  let decay := momentum self in
  let one := jnp_array 1 (x_dtype x) in
  let debias := one -. decay **. (counter +. py_int 1) in
  let new_mean :=
    (hidden_mean *. decay +. batch_mean *. (one -. decay)) /. debias in
  let new_var :=
    (hidden_var *. decay +. batch_var *. (one -. decay)) /. debias in
  exists state',
    __call__ self x state (Some false) = Ok (out, state') /\
    running_statistics self state' = Ok (new_mean, new_var) /\
    __call__ self x' state' (Some true)
    = (out' ← jax_vmap5 (_norm self) x' new_mean new_var
                (weight self) (bias self);
       mret (out', state')).
Proof.
  intros Hmode Hci Hsi Hcounter Hstats Hbatch Hnorm.
  intros decay one debias new_mean new_var.
  pose proof (call_batch_training self x state (Some false) counter_index
                state_index counter hidden_mean hidden_var running_mean
                running_var batch_mean batch_var Hmode eq_refl Hci Hsi
                Hcounter Hstats Hbatch) as Heq.
  cbv zeta in Heq. rewrite Hnorm in Heq.
  cbn [mbind result_bind mret result_ret] in Heq.
  eexists. split; [exact Heq |].
  assert (Hrun :
    running_statistics self
      (set (set state counter_index (SArr (counter +. py_int 1))) state_index
         (STuple
            [STuple [SArr (hidden_mean *. decay +. batch_mean *. (one -. decay));
                     SArr (hidden_var *. decay +. batch_var *. (one -. decay))];
             STuple [SArr new_mean; SArr new_var]]))
    = Ok (new_mean, new_var)).
  { unfold running_statistics. rewrite Hmode, Hsi, get_set_eq. reflexivity. }
  split; [exact Hrun |].
  erewrite call_inference; [| reflexivity |].
  - fold decay one debias new_mean new_var. rewrite Hrun. reflexivity.
  - unfold indices. rewrite Hmode, Hci, Hsi. reflexivity.
Qed.

End MoreFacts.

(** *** The same on the example layers, with symbolic numbers *)

Lemma missing_indices_assert_witness :
  let broken : BatchNorm term :=
    {| weight := None; bias := None; ema_first_time_index := None;
       ema_state_index := None; batch_counter := None;
       batch_state_index := None; axis_name := "batch"; inference := false;
       input_size := 3; eps := TFloat 0; channelwise_affine := false;
       momentum := TFloat 0; mode := "ema" |} in
  __call__ broken (TInput "x") (initial_state (example_layer "ema")) None
  = Raise assertion_error.
Proof.
  intros broken.
  apply (missing_indices_assert broken (TInput "x")
           (initial_state (example_layer "ema")) None).
  left. reflexivity.
Defined.

Lemma inference_reads_statistics_only_witness :
  let layer := example_layer "batch" in
  fst <$> __call__ layer (TInput "x") (initial_state layer) (Some true)
  = fst <$> __call__ layer (TInput "x")
              (<[1%positive := SArr (TIntArray 5)]> (initial_state layer))
              (Some true).
Proof.
  intros layer.
  apply (inference_reads_statistics_only layer (TInput "x")
           (initial_state layer)
           (<[1%positive := SArr (TIntArray 5)]> (initial_state layer))
           (Some true));
    reflexivity.
Defined.

Lemma init_mode_validation_witness :
  (exists self : BatchNorm term,
     __init__ 1%positive 3 "batch" "ema" (TFloat (1 # 100000)) true
       (TFloat (99 # 100)) false None = Ok self /\ mode self = "ema") /\
  __init__ 1%positive 3 "batch" "layer" (TFloat (1 # 100000)) true
    (TFloat (99 # 100)) false None
  = Raise (Exn "ValueError" "Invalid mode, must be 'ema' or 'batch'.").
Proof.
  split.
  - apply (proj1 (init_mode_validation 1%positive 3 "batch" "ema"
                    (TFloat (1 # 100000)) true (TFloat (99 # 100)) false None)).
    left. reflexivity.
  - apply (proj2 (init_mode_validation 1%positive 3 "batch" "layer"
                    (TFloat (1 # 100000)) true (TFloat (99 # 100)) false None));
      discriminate.
Defined.

Lemma init_well_formed_witness :
  state_ready (example_layer "ema") (initial_state (example_layer "ema")) = true /\
  state_ready (example_layer "batch") (initial_state (example_layer "batch"))
  = true.
Proof.
  split.
  - destruct (init_well_formed 1%positive 3 "batch" "ema" (TFloat (1 # 100000))
                true (TFloat (99 # 100)) false None (example_layer "ema")
                eq_refl) as ((a & b & Hidx & _ & Hready) & _).
    injection Hidx as <- <-. apply Hready; reflexivity.
  - destruct (init_well_formed 1%positive 3 "batch" "batch" (TFloat (1 # 100000))
                true (TFloat (99 # 100)) false None (example_layer "batch")
                eq_refl) as ((a & b & Hidx & _ & Hready) & _).
    injection Hidx as <- <-. apply Hready; reflexivity.
Defined.

Lemma fresh_inference_witness :
  let layer := example_layer "ema" in
  __call__ layer (TInput "x") (initial_state layer) (Some true)
  = (out ← jax_vmap5 (_norm layer) (TInput "x") (TEmpty 3 "float32")
             (TEmpty 3 "float32") (weight layer) (bias layer);
     mret (out, initial_state layer)).
Proof.
  intros layer.
  exact (fresh_inference 1%positive 3 "batch" "ema" (TFloat (1 # 100000)) true
           (TFloat (99 # 100)) false None layer (TInput "x")
           (initial_state layer) (Some true)
           (mkStateIndex 1%positive (SArr (TBool true)))
           (mkStateIndex 2%positive
              (STuple [SArr (TEmpty 3 "float32"); SArr (TEmpty 3 "float32")]))
           eq_refl eq_refl eq_refl eq_refl).
Defined.

Lemma first_training_call_witness :
  let layer := example_layer "ema" in
  exists out state' batch_mean batch_var,
    __call__ layer (TInput "x") (initial_state layer) None = Ok (out, state') /\
    jax_vmap1 (_stats layer) (TInput "x") = Ok (batch_mean, batch_var) /\
    state' !! 1%positive = Some (SArr (TBool false)) /\
    running_statistics layer state' = Ok (batch_mean, batch_var).
Proof.
  intros layer.
  edestruct (first_training_call 1%positive 3 "batch" (TFloat (1 # 100000)) true
               (TFloat (99 # 100)) false None layer (TInput "x")
               (initial_state layer) None
               (mkStateIndex 1%positive (SArr (TBool true)))
               (mkStateIndex 2%positive
                  (STuple [SArr (TEmpty 3 "float32"); SArr (TEmpty 3 "float32")])))
    as (batch_mean & batch_var & Hbatch & _ & Hstate & Hstats);
    [reflexivity | reflexivity | reflexivity | reflexivity | reflexivity
    | reflexivity |].
  eexists _, _, batch_mean, batch_var.
  split; [reflexivity |]. split; [exact Hbatch |]. split; [| exact Hstats].
  reflexivity.
Defined.

Lemma ema_training_then_inference_witness :
  let layer := example_layer "ema" in
  exists out state',
    __call__ layer (TInput "x") (initial_state layer) (Some false)
    = Ok (out, state') /\
    __call__ layer (TInput "x") state' (Some true) = Ok (out, state').
Proof.
  intros layer. eexists _, _. split; [reflexivity |].
  apply (ema_training_then_inference layer (TInput "x") (initial_state layer));
    reflexivity.
Defined.

Lemma batch_training_ignores_average_witness :
  let layer := example_layer "batch" in
  let hidden := STuple [SArr (TFull 0 3 "float32"); SArr (TFull 1 3 "float32")] in
  __call__ layer (TInput "x")
    (<[2%positive := STuple [hidden;
                             STuple [SArr (TInput "m"); SArr (TInput "v")]]]>
       (initial_state layer))
    None
  = __call__ layer (TInput "x") (initial_state layer) None.
Proof.
  intros layer hidden.
  eapply (batch_training_ignores_average layer (TInput "x")
            (initial_state layer) None
            (mkStateIndex 2%positive (STuple [hidden; hidden])) hidden);
    reflexivity.
Defined.

Lemma training_keeps_ready_witness :
  let layer := example_layer "batch" in
  exists out state',
    __call__ layer (TInput "x") (initial_state layer) None = Ok (out, state') /\
    state_ready layer state' = true /\
    dom state' = dom (initial_state layer).
Proof.
  intros layer. eexists _, _. split; [reflexivity |].
  eapply (training_keeps_ready layer (TInput "x") (initial_state layer) None);
    reflexivity.
Defined.

Lemma batch_training_then_inference_witness :
  let layer := example_layer "batch" in
  exists out state' new_mean new_var,
    __call__ layer (TInput "x") (initial_state layer) (Some false)
    = Ok (out, state') /\
    running_statistics layer state' = Ok (new_mean, new_var) /\
    __call__ layer (TInput "y") state' (Some true)
    = (out' ← jax_vmap5 (_norm layer) (TInput "y") new_mean new_var
                (weight layer) (bias layer);
       mret (out', state')).
Proof.
  intros layer.
  edestruct (batch_training_then_inference layer (TInput "x") (TInput "y")
               (initial_state layer))
    as (state' & Hcall & Hstats & Hinf);
    [reflexivity | reflexivity | reflexivity | reflexivity | reflexivity
    | reflexivity | reflexivity |].
  eexists _, state', _, _. split; [exact Hcall |]. split; [exact Hstats |].
  exact Hinf.
Defined.

Lemma ema_two_calls_witness :
  let layer := example_layer "ema" in
  exists out1 out2 state1 state2 mean1 var1 mean2 var2,
    jax_vmap1 (_stats layer) (TInput "x1") = Ok (mean1, var1) /\
    jax_vmap1 (_stats layer) (TInput "x2") = Ok (mean2, var2) /\
    __call__ layer (TInput "x1") (initial_state layer) None = Ok (out1, state1) /\
    __call__ layer (TInput "x2") state1 None = Ok (out2, state2) /\
    running_statistics layer state2
    = Ok (TAdd (TMul (TSub (TInt 1) (TFloat (99 # 100))) mean2)
            (TMul (TFloat (99 # 100)) mean1),
          TAdd (TMul (TSub (TInt 1) (TFloat (99 # 100))) var2)
            (TMul (TFloat (99 # 100)) var1)).
Proof.
  intros layer.
  edestruct (ema_two_calls layer (TInput "x1") (TInput "x2")
               (initial_state layer))
    as (state1 & state2 & Hcall1 & Hcall2 & _ & Hstats2);
    [reflexivity | reflexivity | reflexivity | reflexivity | cbn; lia
    | reflexivity | reflexivity | reflexivity | reflexivity | reflexivity
    | reflexivity |].
  eexists _, _, state1, state2, _, _, _, _.
  split; [reflexivity |]. split; [reflexivity |].
  split; [exact Hcall1 |]. split; [exact Hcall2 |]. exact Hstats2.
Defined.

End BatchNormExtra.
